(** * contrastvisor: the decorrelation pipeline of [ContrastScreen] and the
      frame loop of [Camera]

    A shallow embedding of the two source files of the repository:

    - the screen component ([sumsToCov], [oncePerTimestamp], the canvas
      initialisation [canvasRef] and the per-tick [render]);
    - [camera.js] ([videoFrameCallback] and its re-registration [watch]).

    JavaScript numbers are IEEE 754 binary64 values, which is what Rocq's
    primitive [float] is: arithmetic, comparison and NaN behave as in the
    source.  Arrays are lists; reading past the end of an array yields
    [undefined], which every arithmetic operator turns into NaN.  Closures
    over mutable variables become explicit state passing. *)

From Stdlib Require Import Bool List Arith Lia ZArith String.
From Stdlib Require Import Floats.
From Stdlib Require Import Ring InitialRing.
Import ListNotations.

Set Implicit Arguments.

(** ** JavaScript numbers *)

Definition number := float.

(** The global [isNaN] applied to a number. *)
Definition isNaN (x : number) : bool := is_nan x.

(** [x != y] on two numbers (IEEE inequality: NaN differs from itself, the
    two zeros are equal). *)
Definition num_neq (x y : number) : bool := negb (x =? y)%float.

(** [x === y] on two numbers. *)
Definition num_eq (x y : number) : bool := (x =? y)%float.

(** Truthiness of a number: everything but the zeros and NaN. *)
Definition truthy (x : number) : bool := negb (x =? 0)%float && negb (isNaN x).

(** [Math.fround(x)]: the single-precision number nearest to [x], ties to
    even, as a double.  It is what a Float32Array holds after [x] was
    written into it: a value too large becomes an infinity, a value too
    small a zero; NaN, the infinities and the zeros are kept. *)
Definition fround (x : number) : number :=
  match Prim2SF x with
  | S754_finite s m e => SF2Prim (binary_round 24 128 s m e)
  | _ => x
  end.

(** [a[k]] for an array of numbers, used inside arithmetic: an index past
    the end reads [undefined], i.e. NaN. *)
Definition idx (a : list number) (k : nat) : number := nth k a nan.

(** [a.some(p)]. *)
Definition some (p : number -> bool) (a : list number) : bool := existsb p a.

(** ** gl-matrix (external library): the functions the source calls

    [mat4], [mat3], [vec3] and [vec2] are flat arrays of numbers.  The
    library allocates them as Float32Arrays, its default array type: every
    number written into one is rounded to single precision ([fround]).
    The sums and products themselves are computed on doubles. *)

Module GlMatrix.

Definition mat4 := list number.
Definition mat3 := list number.
Definition vec3 := list number.
Definition vec2 := list number.

Local Open Scope float_scope.

(** [mat4.create()]: a new identity matrix (0 and 1 are single-precision
    numbers). *)
Definition mat4_create : mat4 :=
  [1; 0; 0; 0;
   0; 1; 0; 0;
   0; 0; 1; 0;
   0; 0; 0; 1].

(** [mat3.create()]: a new identity matrix. *)
Definition mat3_create : mat3 :=
  [1; 0; 0;
   0; 1; 0;
   0; 0; 1].

(** [vec2.fromValues(x, y)] and [vec3.fromValues(x, y, z)]: a new array
    holding the values. *)
Definition vec2_fromValues (x y : number) : vec2 := [fround x; fround y].
Definition vec3_fromValues (x y z : number) : vec3 :=
  [fround x; fround y; fround z].

(** One line of [mat4.multiply]: the four entries computed from the cached
    line [b0 b1 b2 b3] of the second matrix, as [out] holds them. *)
Definition multiply_line (a : mat4) (b0 b1 b2 b3 : number) : list number :=
  let a00 := idx a 0 in let a01 := idx a 1 in
  let a02 := idx a 2 in let a03 := idx a 3 in
  let a10 := idx a 4 in let a11 := idx a 5 in
  let a12 := idx a 6 in let a13 := idx a 7 in
  let a20 := idx a 8 in let a21 := idx a 9 in
  let a22 := idx a 10 in let a23 := idx a 11 in
  let a30 := idx a 12 in let a31 := idx a 13 in
  let a32 := idx a 14 in let a33 := idx a 15 in
  [ fround (b0 * a00 + b1 * a10 + b2 * a20 + b3 * a30);
    fround (b0 * a01 + b1 * a11 + b2 * a21 + b3 * a31);
    fround (b0 * a02 + b1 * a12 + b2 * a22 + b3 * a32);
    fround (b0 * a03 + b1 * a13 + b2 * a23 + b3 * a33) ].

(** [mat4.multiply(out, a, b)] for an [out] made by [mat4.create()],
    returning the new contents of [out]. *)
Definition mat4_multiply (a b : mat4) : mat4 :=
  multiply_line a (idx b 0) (idx b 1) (idx b 2) (idx b 3) ++
  multiply_line a (idx b 4) (idx b 5) (idx b 6) (idx b 7) ++
  multiply_line a (idx b 8) (idx b 9) (idx b 10) (idx b 11) ++
  multiply_line a (idx b 12) (idx b 13) (idx b 14) (idx b 15).

(** [mat3.translate(out, a, v)] for an [out] made by [mat3.create()]. *)
Definition mat3_translate (a : mat3) (v : vec2) : mat3 :=
  let a00 := idx a 0 in let a01 := idx a 1 in let a02 := idx a 2 in
  let a10 := idx a 3 in let a11 := idx a 4 in let a12 := idx a 5 in
  let a20 := idx a 6 in let a21 := idx a 7 in let a22 := idx a 8 in
  let x := idx v 0 in let y := idx v 1 in
  [ fround a00; fround a01; fround a02;
    fround a10; fround a11; fround a12;
    fround (x * a00 + y * a10 + a20);
    fround (x * a01 + y * a11 + a21);
    fround (x * a02 + y * a12 + a22) ].

(** [mat3.scale(out, a, v)] for an [out] made by [mat3.create()]. *)
Definition mat3_scale (a : mat3) (v : vec2) : mat3 :=
  let x := idx v 0 in let y := idx v 1 in
  [ fround (x * idx a 0); fround (x * idx a 1); fround (x * idx a 2);
    fround (y * idx a 3); fround (y * idx a 4); fround (y * idx a 5);
    fround (idx a 6); fround (idx a 7); fround (idx a 8) ].

End GlMatrix.
Import GlMatrix.

(** ** la.js: the part the screen component relies on *)

Module La.

(** A matrix as [matrixFrom] builds it: its rows. *)
Definition matrix := list (list number).

(** Modelled from the spec: [matrixFrom] belongs to la.js, which is not
    among the sources.  [matrixFrom(rows, cols, e)] is the [rows]-by-[cols]
    matrix whose entry in row [i] and column [j] is [e(i, j)]. *)
Definition matrixFrom (rows cols : nat) (e : nat -> nat -> number) : matrix :=
  map (fun i => map (fun j => e i j) (seq 0 cols)) (seq 0 rows).

(** Entry [(i, j)] of a matrix. *)
Definition entry (m : matrix) (i j : nat) : number :=
  nth j (nth i m []) nan.

End La.
Import La.

(** ** The screen component *)

Definition nsamples : Z := 1000.

(** [sumsToCov(s)]: from the accessor of the 4x4 matrix of sampled sums to
    the 3x3 covariance matrix. *)
Definition sumsToCov (s : nat -> nat -> number) : matrix :=
  let n := s 3%nat 3%nat in
  let e := fun i j => ((s i j - s i 3%nat * s 3%nat j / n) / (n - 1))%float in
  matrixFrom 3 3 e.

(** *** [oncePerTimestamp]

    The wrapped function [f] acts on a state of type [St] and returns a [Res];
    the closure variable [lastTimestamp] starts as [undefined] ([None]). *)

Section OncePerTimestamp.

Variables St Res : Type.
Variable f : number -> St -> Res * St.

(** [timestamp != lastTimestamp]: a number never equals [undefined]. *)
Definition differs (timestamp : number) (lastTimestamp : option number) : bool :=
  match lastTimestamp with
  | None => true
  | Some l => num_neq timestamp l
  end.

(** One call of the function [oncePerTimestamp(f)] returns.  The result is
    [None] where the source returns nothing. *)
Definition oncePerTimestamp (timestamp : number) (st : option number * St)
  : option Res * (option number * St) :=
  let (lastTimestamp, s) := st in
  if differs timestamp lastTimestamp then
    let (r, s') := f timestamp s in
    (Some r, (Some timestamp, s'))
  else (None, st).

(** A sequence of calls, one per requested timestamp. *)
Fixpoint requests (ts : list number) (st : option number * St)
  : option number * St :=
  match ts with
  | [] => st
  | t :: ts' => requests ts' (snd (oncePerTimestamp t st))
  end.

End OncePerTimestamp.

(** An instrumented compositor: it records the timestamp of every
    execution. *)
Definition recorder (timestamp : number) (log : list number) : unit * list number :=
  (tt, log ++ [timestamp]).

(** The executions of the wrapped function over a sequence of requests,
    starting from a fresh wrapper. *)
Definition invocations (ts : list number) : list number :=
  snd (requests recorder ts (None, [])).

(** *** Data of the component *)

(** The metadata of a video frame. *)
Module Frame.
Record t := make { width : number; height : number }.
End Frame.

(** The video element handed to [texImage2D], identified by the image it
    shows at that moment. *)
Definition Video := nat.

(** [nextFrame.current] when it is set. *)
Module NextFrame.
Record t := make { frame : Frame.t; camera : Video }.
End NextFrame.

(** The contents of the texture: the pixel it is created with, or the last
    image copied from the camera. *)
Inductive Texture :=
| InitialPixel
| CameraImage (camera : Video).

(** What a [projection] function returns. *)
Module ToScreen.
Record t := make { x : number; y : number; scale : number }.
End ToScreen.

Module Bounds.
Record t := make { left : number; top : number; right : number; bottom : number }.
End Bounds.

Module Proj.
Record t := make {
  toScreen : ToScreen.t;
  screenBoundsInImage : Bounds.t;
  imageWidth : number;
  imageHeight : number }.
End Proj.

(** What [captureSignal()] returns when a capture is requested. *)
Module Capture.
Record t := make { fileName : string; type : string }.
End Capture.

(** [propsRef.current] as one tick reads it.  [decor], [post] and
    [projection] are [None] when absent; [captureSignal] is the result of
    polling the signal in this tick. *)
Module Props.
Record t := make {
  decor : option number;
  post : option mat4;
  projection : option (number -> Proj.t);
  captureSignal : option Capture.t }.
End Props.

(** The collaborators of [render] whose code is not among the sources:
    the sampler ([statSampler.sample]) and two functions of la.js.  Each
    is a function of its arguments, and what it returns is a new array:
    the matrix [decorStretcher] returns is not one it will write to
    again. *)
Module Env.
Record t := make {
  sample : Texture -> mat3 -> list number;
  decorStretcher : matrix -> vec3 -> number -> mat4;
  mat4scaleThenTranslate2d : number -> number -> number -> mat4 }.
End Env.

(** The mutable variables [render] closes over. *)
Module Pipeline.
Record t := make {
  nextFrame : option NextFrame.t;
  texture : Texture;
  lastFrame : Frame.t;
  seenCamera : bool;
  lastDecorTransformation : mat4 }.
End Pipeline.

(** The arguments of [screen.display]. *)
Module Display.
Record t := make {
  colorTransformation : mat4;
  texture : Texture;
  width : number;
  height : number;
  positionMatrix : mat4;
  resolution : option (number * number) }.
End Display.

(** Everything one execution of [render] does: the call of the sampler (if
    any) with its arguments, the call of [decorStretcher] (if any) with its
    arguments, the final value of the local [decorTransformation], the draw
    call, the capture saved (if any), and the variables afterwards. *)
Module Tick.
Record t := make {
  sampled : option (Texture * mat3);
  built : option (matrix * vec3 * number);
  decorTransformation : mat4;
  display : Display.t;
  saved : option Capture.t;
  after : Pipeline.t }.
End Tick.

(** The local [sums] of [render]: the accessor of the sampled 4x4 matrix. *)
Definition sums (pixels : list number) (i j : nat) : number :=
  idx pixels (i * 4 + j).
Arguments sums pixels (i j)%_nat_scope.

(** The local [means] of [render]. *)
Definition means (pixels : list number) : vec3 :=
  vec3_fromValues
    (sums pixels 0 3 / sums pixels 3 3)%float
    (sums pixels 1 3 / sums pixels 3 3)%float
    (sums pixels 2 3 / sums pixels 3 3)%float.

(** [decor] is set and truthy. *)
Definition enabled (decor : option number) : option number :=
  match decor with
  | Some d => if truthy d then Some d else None
  | None => None
  end.

Section Render.

Variable env : Env.t.

Local Open Scope float_scope.

(** The first block of [render]: a pending frame is copied to the texture
    and becomes the last frame. *)
Definition consume (p : Pipeline.t) : Pipeline.t :=
  match Pipeline.nextFrame p with
  | Some next =>
      Pipeline.make None
        (CameraImage (NextFrame.camera next))
        (NextFrame.frame next)
        true
        (Pipeline.lastDecorTransformation p)
  | None => p
  end.

(** The projection block: position matrix, sample matrix, displayed width
    and displayed height. *)
Definition project (projection : option (number -> Proj.t)) (lastFrame : Frame.t)
  : mat4 * mat3 * number * number :=
  let positionMatrix := mat4_create in
  let sampleMatrix := mat3_create in
  let displayedWidth := Frame.width lastFrame in
  let displayedHeight := Frame.height lastFrame in
  match projection with
  | Some projection =>
      let proj := projection (Frame.width lastFrame / Frame.height lastFrame) in
      let positionMatrix :=
        Env.mat4scaleThenTranslate2d env
          (ToScreen.x (Proj.toScreen proj))
          (ToScreen.y (Proj.toScreen proj))
          (ToScreen.scale (Proj.toScreen proj)) in
      let bounds := Proj.screenBoundsInImage proj in
      let sampleMatrix :=
        mat3_translate sampleMatrix
          (vec2_fromValues
             (1 / 2 + Bounds.left bounds / Proj.imageWidth proj)
             (1 / 2 + Bounds.top bounds / Proj.imageHeight proj)) in
      let widthRatio := (Bounds.right bounds - Bounds.left bounds) / Proj.imageWidth proj in
      let heightRatio := (Bounds.bottom bounds - Bounds.top bounds) / Proj.imageHeight proj in
      let sampleMatrix :=
        mat3_scale sampleMatrix (vec2_fromValues widthRatio heightRatio) in
      (positionMatrix, sampleMatrix,
       Frame.width lastFrame * widthRatio,
       Frame.height lastFrame * heightRatio)
  | None => (positionMatrix, sampleMatrix, displayedWidth, displayedHeight)
  end.

(** [render(now)]. *)
Definition render (props : Props.t) (now : number) (p0 : Pipeline.t) : Tick.t :=
  let p := consume p0 in
  let lastFrame := Pipeline.lastFrame p in
  let '(positionMatrix, sampleMatrix, displayedWidth, displayedHeight) :=
    project (Props.projection props) lastFrame in
  let colorTransformation := mat4_create in
  let decorTransformation := mat4_create in
  let '(sampled, built, decorTransformation, lastDecorTransformation) :=
    if Pipeline.seenCamera p then
      match enabled (Props.decor props) with
      | Some decor =>
          let pixels := Env.sample env (Pipeline.texture p) sampleMatrix in
          let cov := sumsToCov (sums pixels) in
          let means := means pixels in
          let decorTransformation := Env.decorStretcher env cov means decor in
          if some isNaN decorTransformation then
            (Some (Pipeline.texture p, sampleMatrix), Some (cov, means, decor),
             Pipeline.lastDecorTransformation p,
             Pipeline.lastDecorTransformation p)
          else
            (Some (Pipeline.texture p, sampleMatrix), Some (cov, means, decor),
             decorTransformation,
             decorTransformation)
      | None =>
          (None, None, decorTransformation, Pipeline.lastDecorTransformation p)
      end
    else (None, None, decorTransformation, Pipeline.lastDecorTransformation p) in
  let colorTransformation :=
    if Pipeline.seenCamera p then
      match Props.post props with
      | Some post => mat4_multiply post decorTransformation
      | None => decorTransformation
      end
    else colorTransformation in
  let capture := Props.captureSignal props in
  let resolution :=
    match capture with
    | Some _ => Some (displayedWidth, displayedHeight)
    | None => None
    end in
  Tick.make sampled built decorTransformation
    (Display.make colorTransformation (Pipeline.texture p)
       (Frame.width lastFrame) (Frame.height lastFrame)
       positionMatrix resolution)
    capture
    (Pipeline.make (Pipeline.nextFrame p) (Pipeline.texture p) lastFrame
       (Pipeline.seenCamera p) lastDecorTransformation).

(** [render] as the function handed to [oncePerTimestamp]: the props are
    those current when the tick runs. *)
Definition renderWith (props : Props.t) (now : number) (p : Pipeline.t)
  : Tick.t * Pipeline.t :=
  let t := render props now p in (t, Tick.after t).

(** [onCameraFrame(now, frame, camera)]: the frame becomes the pending
    one (a frame request follows). *)
Definition onCameraFrame (now : number) (frame : Frame.t) (camera : Video)
    (p : Pipeline.t) : Pipeline.t :=
  Pipeline.make (Some (NextFrame.make frame camera))
    (Pipeline.texture p) (Pipeline.lastFrame p) (Pipeline.seenCamera p)
    (Pipeline.lastDecorTransformation p).

(** What reaches the installed pipeline: a camera frame, or an animation
    frame that calls [renderOnce] with the props current at that time. *)
Inductive Event :=
| CameraFrame (now : number) (frame : Frame.t) (camera : Video)
| AnimationFrame (props : Props.t) (timestamp : number).

(** The state of the installed pipeline: [lastTimestamp] of [renderOnce]
    and the variables of [render]. *)
Definition Running := (option number * Pipeline.t)%type.

Definition handle (e : Event) (st : Running) : Running :=
  match e with
  | CameraFrame now frame camera =>
      (fst st, onCameraFrame now frame camera (snd st))
  | AnimationFrame props timestamp =>
      snd (oncePerTimestamp (renderWith props) timestamp st)
  end.

Definition run (events : list Event) (st : Running) : Running :=
  fold_left (fun st e => handle e st) events st.

End Render.


(** *** Initialisation: [canvasRef] *)

(** The rendering context, as far as initialisation queries it: whether
    [getExtension] finds each of the two colour-buffer extensions. *)
Module GL.
Record t := make {
  EXT_color_buffer_float : bool;
  EXT_color_buffer_half_float : bool }.
End GL.

(** The canvas node: what [getContext('webgl2')] returns. *)
Module Canvas.
Record t := make { webgl2 : option GL.t }.
End Canvas.

(** The arguments [new StatSampler(gl, nsamples, bitDepth)] is built with. *)
Module StatSampler.
Record t := make { samples : Z; bitDepth : Z }.
End StatSampler.

(** How a call of [canvasRef] ends: nothing to do for a null node, an
    exception, or the pipeline installed in [renderFrame.current], with the
    errors handed to [errorHandler.onError] on the way and the sampler that
    was constructed. *)
Inductive Init :=
| NoNode
| Thrown (error : string)
| Installed (reported : list string) (statSampler : StatSampler.t) (st : Running).

(** The variables of the closure as [canvasRef] creates them. *)
Definition initialPipeline : Pipeline.t :=
  Pipeline.make None InitialPixel (Frame.make 1%float 1%float) false mat4_create.

Definition canvasRef (node : option Canvas.t) : Init :=
  match node with
  | None => NoNode
  | Some node =>
      match Canvas.webgl2 node with
      | None => Thrown "Could not get webgl2 context"
      | Some gl =>
          let bitDepth := 32%Z in
          let '(bitDepth, reported) :=
            if negb (GL.EXT_color_buffer_float gl) then
              if GL.EXT_color_buffer_half_float gl then (16%Z, [])
              else
                (bitDepth,
                 ["Could not get WebGL extenstion EXT_color_buffer_float or EXT_color_buffer_half_float"%string])
            else (bitDepth, []) in
          Installed reported (StatSampler.make nsamples bitDepth)
            (None, initialPipeline)
      end
  end.

(** [renderFrame.current] after [canvasRef] ran. *)
Definition renderFrame (i : Init) : option Running :=
  match i with
  | Installed _ _ st => Some st
  | _ => None
  end.

(** [requestFrame()]: an animation frame is requested exactly when
    [renderFrame.current] is set. *)
Definition requestFrame (i : Init) : bool :=
  match renderFrame i with
  | Some _ => true
  | None => false
  end.

(** ** camera.js: the frame loop of [Camera] *)

Module Camera.

(** The video node: its identity, whether it offers
    [requestVideoFrameCallback], and its current video size. *)
Record Node := {
  id : nat;
  requestVideoFrameCallback : bool;
  videoWidth : number;
  videoHeight : number }.

Section Loop.

(** The state the frame handler acts on. *)
Variable H : Type.

(** A call of the handler returns or throws. *)
Inductive Completion :=
| Returned (h : H)
| Threw (error : string) (h : H).

Definition Handler := number -> Frame.t -> Node -> H -> Completion.

(** [camera.current] (the identity of the node), [frameHandler.current],
    the handler's state, the errors given to [onError] so far, and the
    nodes whose [videoFrameCallback] is registered for the next frame, one
    entry per registration. *)
Record State := {
  current : option nat;
  frameHandler : option Handler;
  handled : H;
  errors : list string;
  watching : list nat }.

(** [watch()]: both variants register [videoFrameCallback] for the next
    frame of the node. *)
Definition watch (node : Node) (st : State) : State :=
  {| current := current st;
     frameHandler := frameHandler st;
     handled := handled st;
     errors := errors st;
     watching := watching st ++ [id node] |}.

(** [camera.current != node]. *)
Definition otherNode (st : State) (node : Node) : bool :=
  match current st with
  | Some c => negb (Nat.eqb c (id node))
  | None => true
  end.

(** [videoFrameCallback(now, frame)] of the closure created for [node]. *)
Definition videoFrameCallback (node : Node) (now : number) (frame : Frame.t)
    (st : State) : State :=
  if otherNode st node then st
  else
    let st1 :=
      match frameHandler st with
      | Some handler =>
          match handler now frame node (handled st) with
          | Returned h =>
              {| current := current st; frameHandler := frameHandler st;
                 handled := h; errors := errors st; watching := watching st |}
          | Threw error h =>
              {| current := current st; frameHandler := frameHandler st;
                 handled := h; errors := errors st ++ [error];
                 watching := watching st |}
          end
      | None => st
      end in
    watch node st1.

(** [camRef(node)] for a node that is not null. *)
Definition camRef (node : Node) (st : State) : State :=
  watch node
    {| current := Some (id node); frameHandler := frameHandler st;
       handled := handled st; errors := errors st; watching := watching st |}.

(** Removes the first registration of the node, if there is one. *)
Fixpoint unregister (n : nat) (w : list nat) : option (list nat) :=
  match w with
  | [] => None
  | m :: w' =>
      if Nat.eqb m n then Some w'
      else match unregister n w' with
           | Some r => Some (m :: r)
           | None => None
           end
  end.

(** The browser delivers a frame of the node: a registered callback is
    consumed and called.  With [requestVideoFrameCallback] it receives the
    frame's metadata, with [requestAnimationFrame] the size of the video. *)
Definition deliver (node : Node) (now : number) (metadata : Frame.t)
    (st : State) : State :=
  match unregister (id node) (watching st) with
  | Some w =>
      let frame :=
        if requestVideoFrameCallback node then metadata
        else Frame.make (videoWidth node) (videoHeight node) in
      videoFrameCallback node now frame
        {| current := current st; frameHandler := frameHandler st;
           handled := handled st; errors := errors st; watching := w |}
  | None => st
  end.

(** A sequence of delivered frames. *)
Definition deliveries (node : Node) (frames : list (number * Frame.t))
    (st : State) : State :=
  fold_left (fun st f => deliver node (fst f) (snd f) st) frames st.

(** The frame a delivery hands to the handler. *)
Definition frameOf (node : Node) (metadata : Frame.t) : Frame.t :=
  if requestVideoFrameCallback node then metadata
  else Frame.make (videoWidth node) (videoHeight node).

(** What calling the handler on every frame in turn amounts to: the state
    it reaches and the errors it throws. *)
Fixpoint handleAll (handler : Handler) (node : Node)
    (frames : list (number * Frame.t)) (h : H) (errs : list string)
  : H * list string :=
  match frames with
  | [] => (h, errs)
  | f :: frames' =>
      match handler (fst f) (frameOf node (snd f)) node h with
      | Returned h' => handleAll handler node frames' h' errs
      | Threw e h' => handleAll handler node frames' h' (errs ++ [e])
      end
  end.

End Loop.

End Camera.

(** *** [stopStream] *)

Module Stream.

(** A track, by its identity. *)
Definition Track := nat.

(** A media stream: the tracks it holds, without repetition. *)
Record t := make { tracks : list Track }.

(** [stream.removeTrack(track)]: the track leaves the stream, if it is in
    it. *)
Definition removeTrack (track : Track) (stream : t) : t :=
  make (filter (fun u => negb (Nat.eqb u track)) (tracks stream)).

(** [track.stop()]: the track is among the ended ones from then on. *)
Definition stop (track : Track) (ended : list Track) : list Track :=
  if existsb (Nat.eqb track) ended then ended else ended ++ [track].

(** [stopStream(stream)], on the stream (if any) and the tracks that have
    ended so far.  [getTracks()] returns a new array of the tracks the
    stream holds at that moment; [forEach] goes through that array. *)
Definition stopStream (stream : option t) (ended : list Track)
  : option t * list Track :=
  match stream with
  | Some stream =>
      let r :=
        fold_left
          (fun acc track => (removeTrack track (fst acc), stop track (snd acc)))
          (tracks stream) (stream, ended) in
      (Some (fst r), snd r)
  | None => (None, ended)
  end.

End Stream.

(** ** The decorrelation builder, as the specification describes it *)

Module DecorSpec.

Section Builder.

(** Exact arithmetic: the scalars form a commutative ring. *)
Variable K : Type.
Variables (kO kI : K) (kadd kmul ksub : K -> K -> K) (kopp : K -> K).
Hypothesis Kring : ring_theory kO kI kadd kmul ksub kopp (@eq K).

Declare Scope K_scope.
Delimit Scope K_scope with K.
Local Notation "x + y" := (kadd x y) : K_scope.
Local Notation "x * y" := (kmul x y) : K_scope.
Local Notation "- x" := (kopp x) : K_scope.
Local Open Scope K_scope.

Definition mat := nat -> nat -> K.
Definition vec := nat -> K.

(** The eigendecomposition of the covariance (assumed, not specified): the
    eigenvectors, as the columns of a 3x3 matrix, and the eigenvalues. *)
Variable eigenvectors : mat -> mat.
Variable eigenvalues : mat -> vec.

(** The factor by which the axis of an eigenvalue is rescaled for a given
    [decor]. *)
Variable Decor : Type.
Variable rescale : Decor -> K -> K.

(** Product of 4x4 matrices and of a 4x4 matrix with a vector. *)
Definition mul4 (a b : mat) : mat :=
  fun i j => a i 0%nat * b 0%nat j + a i 1%nat * b 1%nat j
           + a i 2%nat * b 2%nat j + a i 3%nat * b 3%nat j.


(** [R * S(decor) * R^T] on the three colour channels. *)
Definition stretch (cov : mat) (decor : Decor) : mat :=
  let r := eigenvectors cov in
  let s := fun k => rescale decor (eigenvalues cov k) in
  fun i j => r i 0%nat * s 0%nat * r j 0%nat
           + r i 1%nat * s 1%nat * r j 1%nat
           + r i 2%nat * s 2%nat * r j 2%nat.

(** A 3x3 matrix as a 4x4 affine matrix without translation. *)
Definition linear (a : mat) : mat :=
  fun i j =>
    match i, j with
    | 3%nat, 3%nat => kI
    | 3%nat, _ | _, 3%nat => kO
    | _, _ => a i j
    end.

(** The translation by a vector of three components. *)
Definition translation (t : vec) : mat :=
  fun i j =>
    if Nat.eqb i j then kI
    else match i, j with
         | 0%nat, 3%nat => t 0%nat
         | 1%nat, 3%nat => t 1%nat
         | 2%nat, 3%nat => t 2%nat
         | _, _ => kO
         end.


(** Modelled from the spec: [decorStretcher] belongs to la.js, which is not
    among the sources.  Rotate into the principal axes, rescale, rotate
    back, then translate so that the mean maps to itself: the stretch is
    applied about the mean. *)
Definition decorStretcher (cov : mat) (means : vec) (decor : Decor) : mat :=
  mul4 (translation means)
    (mul4 (linear (stretch cov decor)) (translation (fun i => - means i))).

End Builder.

End DecorSpec.


(** ** Concrete collaborators and inputs *)

Module Examples.

Local Open Scope float_scope.

(** The sums of four sampled pixels, red, green, blue and white, each
    extended by 1: a symmetric matrix with [n = 4]. *)
Definition sums16 : list number :=
  [2; 1; 1; 2;
   1; 2; 1; 2;
   1; 1; 2; 2;
   2; 2; 2; 4].

(** An instance of [mat4scaleThenTranslate2d] as its name reads: scale the
    two screen axes, then translate them. *)
Definition scaleThenTranslate (x y scale : number) : mat4 :=
  [scale; 0; 0; 0;
   0; scale; 0; 0;
   0; 0; 1; 0;
   x; y; 0; 1].

(** Three builders: one that returns a finite matrix, one whose result
    holds a NaN, one whose result holds an infinity and no NaN. *)
Definition finiteStretcher (cov : matrix) (means : vec3) (decor : number) : mat4 :=
  [1 + decor; 0; 0; 0;
   0; 1 + decor; 0; 0;
   0; 0; 1 + decor; 0;
   0; 0; 0; 1].

Definition nanStretcher (cov : matrix) (means : vec3) (decor : number) : mat4 :=
  [nan; 0; 0; 0;
   0; 1; 0; 0;
   0; 0; 1; 0;
   0; 0; 0; 1].

Definition infiniteStretcher (cov : matrix) (means : vec3) (decor : number) : mat4 :=
  [infinity; 0; 0; 0;
   0; 1; 0; 0;
   0; 0; 1; 0;
   0; 0; 0; 1].

Definition envFinite : Env.t :=
  Env.make (fun _ _ => sums16) finiteStretcher scaleThenTranslate.
Definition envNaN : Env.t :=
  Env.make (fun _ _ => sums16) nanStretcher scaleThenTranslate.
Definition envInfinite : Env.t :=
  Env.make (fun _ _ => sums16) infiniteStretcher scaleThenTranslate.

(** A pipeline that has consumed a 640x480 frame, and one holding a
    transform built earlier. *)
Definition seen : Pipeline.t :=
  Pipeline.make None (CameraImage 0%nat) (Frame.make 640 480) true mat4_create.

Definition held : mat4 :=
  [3; 0; 0; 0;
   0; 3; 0; 0;
   0; 0; 3; 0;
   0; 0; 0; 1].

Definition seenHeld : Pipeline.t :=
  Pipeline.make None (CameraImage 0%nat) (Frame.make 640 480) true held.

(** A post transform that swaps red and green, and one with an infinite
    entry. *)
Definition swapRG : mat4 :=
  [0; 1; 0; 0;
   1; 0; 0; 0;
   0; 0; 1; 0;
   0; 0; 0; 1].

Definition infinitePost : mat4 :=
  [1; 0; 0; 0;
   infinity; 1; 0; 0;
   0; 0; 1; 0;
   0; 0; 0; 1].

(** A projection that shows the middle half of the image at twice the
    size. *)
Definition zoom (aspect : number) : Proj.t :=
  Proj.make (ToScreen.make 0 0 2)
    (Bounds.make (-0.25) (-0.25) 0.25 0.25) 1 1.

Definition propsOn : Props.t := Props.make (Some 1) None None None.
Definition propsOff : Props.t := Props.make None None None None.
Definition propsOnPost : Props.t := Props.make (Some 1) (Some swapRG) None None.
Definition propsOffPost : Props.t := Props.make None (Some swapRG) None None.
Definition propsOffInfinitePost : Props.t :=
  Props.make None (Some infinitePost) None None.
Definition propsZoom : Props.t := Props.make (Some 1) None (Some zoom) None.

(** A canvas whose context has neither extension. *)
Definition bareCanvas : Canvas.t := Canvas.make (Some (GL.make false false)).

(** A video node and a handler that counts its calls and throws on every
    frame narrower than 2. *)
Definition videoNode : Camera.Node :=
  {| Camera.id := 7%nat; Camera.requestVideoFrameCallback := true;
     Camera.videoWidth := 640; Camera.videoHeight := 480 |}.

Definition touchy : Camera.Handler nat :=
  fun now frame node count =>
    if Frame.width frame <? 2 then Camera.Threw "narrow frame" (S count)
    else Camera.Returned (S count).

Definition unmounted : Camera.State nat :=
  {| Camera.current := None; Camera.frameHandler := Some touchy;
     Camera.handled := O; Camera.errors := []; Camera.watching := [] |}.

(** Three frames, the second one narrow. *)
Definition threeFrames : list (number * Frame.t) :=
  [(0, Frame.make 640 480); (16, Frame.make 1 1); (33, Frame.make 640 480)].


End Examples.


(** Further inputs: two frames of different sizes, a second video node, a
    stream of three tracks. *)
Module MoreExamples.

Local Open Scope float_scope.

Definition small : Frame.t := Frame.make 320 240.
Definition large : Frame.t := Frame.make 1280 720.

Definition propsCapture : Props.t :=
  Props.make (Some 1) None None (Some (Capture.make "still.png" "image/png")).

Definition otherNode : Camera.Node :=
  {| Camera.id := 8%nat; Camera.requestVideoFrameCallback := false;
     Camera.videoWidth := 320; Camera.videoHeight := 240 |}.

Definition threeTracks : Stream.t := Stream.make [1%nat; 2%nat; 3%nat].

(** Sums with [n = 1] and with [n = 0]. *)
Definition oneSample : list number :=
  [1; 0; 0; 1;
   0; 0; 0; 0;
   0; 0; 0; 0;
   1; 0; 0; 1].

Definition noSample : list number := repeat 0 16.

(** The sums of three samples: red, green and blue. *)
Definition threeSamples : list number :=
  [1; 0; 0; 1;
   0; 1; 0; 1;
   0; 0; 1; 1;
   1; 1; 1; 3].

(** A post transform that dims red to a tenth (0.1 as a double). *)
Definition tenthPost : mat4 :=
  [0x1.999999999999ap-4; 0; 0; 0;
   0; 1; 0; 0;
   0; 0; 1; 0;
   0; 0; 0; 1].

Definition propsOffTenthPost : Props.t :=
  Props.make None (Some tenthPost) None None.


End MoreExamples.

(** ** Auxiliary notions *)

(** Until a frame is consumed the pipeline shows the placeholder. *)
Definition placeholder (p : Pipeline.t) : Prop :=
  Pipeline.seenCamera p = false ->
  Pipeline.lastFrame p = Frame.make 1%float 1%float /\
  Pipeline.texture p = InitialPixel.

(** A number seen through its specification is a zero or a finite
    non-zero value. *)
Definition sf_fin (x : spec_float) : bool :=
  match x with
  | S754_zero _ | S754_finite _ _ _ => true
  | _ => false
  end.

Definition fin (x : number) : Prop := sf_fin (Prim2SF x) = true.
Definition isZ (x : number) : Prop := exists s, Prim2SF x = S754_zero s.

(** The same number, up to the sign of zero. *)
Definition same (x y : number) : Prop :=
  Prim2SF x = Prim2SF y \/ (isZ x /\ isZ y).

(** The same number, or two zeros: [x] and [y] are equal up to the sign of
    zero. *)
Definition same_number (x y : number) : Prop :=
  x = y \/ (num_eq x 0%float = true /\ num_eq y 0%float = true).

(** The frame loop is armed: the node is the current one, the handler is
    set and the callback is registered once. *)
Definition armed (H : Type) (node : Camera.Node) (handler : Camera.Handler H)
    (st : Camera.State H) : Prop :=
  Camera.current st = Some (Camera.id node) /\
  Camera.frameHandler st = Some handler /\
  Camera.watching st = [Camera.id node].

(** The timestamps a wrapper that remembers [last] executes out of a
    sequence of requests. *)
Fixpoint executed (last : option number) (ts : list number) : list number :=
  match ts with
  | [] => []
  | t :: ts' =>
      if differs t last then t :: executed (Some t) ts' else executed last ts'
  end.

(** Every timestamp of the list differs ([!=]) from the one before it. *)
Fixpoint consecutive_differ (l : list number) : bool :=
  match l with
  | a :: (b :: _) as l' => num_neq b a && consecutive_differ l'
  | _ => true
  end.

(** The texture of a pipeline that has seen a frame is a camera image. *)
Definition uploaded (p : Pipeline.t) : Prop :=
  Pipeline.seenCamera p = true -> exists camera, Pipeline.texture p = CameraImage camera.

(** An event that is a render tick. *)
Definition isTick (e : Event) : bool :=
  match e with
  | AnimationFrame _ _ => true
  | CameraFrame _ _ _ => false
  end.

(** A number seen through its specification is NaN or an infinity. *)
Definition sf_nonfinite (x : spec_float) : bool :=
  match x with
  | S754_nan | S754_infinity _ => true
  | _ => false
  end.

(** Unfolds [render] and names the four results of the projection block. *)
Ltac open_render :=
  unfold render;
  match goal with
  | |- context [project ?e ?pr ?lf] =>
      destruct (project e pr lf) as [[[positionMatrix sampleMatrix] displayedWidth] displayedHeight]
  end.

(** ** Facts about numbers *)

Lemma SFmul_comm prec emax x y : SFmul prec emax x y = SFmul prec emax y x.
Proof.
  destruct x as [sx|sx| |sx mx ex], y as [sy|sy| |sy my ey]; simpl;
    rewrite ?(xorb_comm sy sx); try reflexivity.
  now rewrite (Pos.mul_comm my mx), (Z.add_comm ey ex).
Qed.

Lemma number_mul_comm (x y : number) : (x * y)%float = (y * x)%float.
Proof. apply Prim2SF_inj. rewrite !mul_spec. apply SFmul_comm. Qed.

Lemma is_finite_fin x : is_finite x = true -> fin x.
Proof.
  unfold fin, is_finite, is_nan, is_infinity.
  rewrite !eqb_spec, abs_spec.
  change (Prim2SF infinity) with (S754_infinity false).
  destruct (Prim2SF x) as [s|s| |s m e]; try reflexivity; intros H;
    [destruct s|]; cbv in H; discriminate H.
Qed.

(** Multiplying a finite non-zero value by 1 shifts the product of the
    mantissas back by the 52 bits the mantissa of 1 added: nothing is
    rounded. *)
Lemma SFmul_one_finite s m e :
  bounded prec emax m e = true ->
  SF64mul (Prim2SF 1) (S754_finite s m e) = S754_finite s m e.
Proof.
  intros Hb.
  unfold bounded, canonical_mantissa in Hb.
  apply andb_true_iff in Hb. destruct Hb as [Hc He].
  apply Z.eqb_eq in Hc.
  change (Prim2SF 1) with (S754_finite false 4503599627370496 (-52)).
  unfold SF64mul, SFmul.
  change (xorb false s) with s.
  set (big := (m~0~0~0~0~0~0~0~0~0~0~0~0~0~0~0~0~0~0~0~0~0~0~0~0~0~0
                ~0~0~0~0~0~0~0~0~0~0~0~0~0~0~0~0~0~0~0~0~0~0~0~0~0~0)%positive).
  change (Pos.mul 4503599627370496 m) with big.
  unfold binary_round_aux, shr_fexp.
  assert (Hd : Zdigits2 (Zpos big) = (Zpos (digits2_pos m) + 52)%Z).
  { unfold big. cbn [Zdigits2 digits2_pos]. lia. }
  rewrite Hd.
  replace (Zpos (digits2_pos m) + 52 + (-52 + e))%Z
    with (Zpos (digits2_pos m) + e)%Z by lia.
  rewrite Hc.
  replace (e - (-52 + e))%Z with 52%Z by lia.
  unfold big.
  cbn [shr shr_record_of_loc iter_pos shr_1 orb].
  cbn [shr_m loc_of_shr_record round_nearest_even].
  replace (-52 + e + 52)%Z with e by lia.
  cbn [Zdigits2]. rewrite Hc, Z.sub_diag.
  cbn [shr shr_record_of_loc shr_m].
  unfold prec, emax in *. rewrite He. reflexivity.
Qed.

Lemma mul_one_l a : fin a -> (1 * a)%float = a.
Proof.
  unfold fin. intros Hf. apply Prim2SF_inj. rewrite mul_spec.
  pose proof (Prim2SF_valid a) as Hv.
  destruct (Prim2SF a) as [s|s| |s m e]; try discriminate Hf.
  - reflexivity.
  - apply SFmul_one_finite. exact Hv.
Qed.

Lemma mul_zero_l a : fin a -> isZ (0 * a)%float.
Proof.
  unfold fin, isZ. intros Hf. rewrite mul_spec.
  change (Prim2SF 0) with (S754_zero false).
  destruct (Prim2SF a) as [s|s| |s m e]; try discriminate Hf;
    eexists; reflexivity.
Qed.

Lemma add_zero_l z y : isZ z -> fin y -> same (z + y)%float y.
Proof.
  intros [s Hz] Hy. unfold fin in Hy. unfold same.
  destruct (Prim2SF y) as [sy|sy| |sy m e] eqn:E; try discriminate Hy.
  - right. split; [|exists sy; exact E].
    unfold isZ. rewrite add_spec, Hz, E.
    destruct s, sy; eexists; reflexivity.
  - left. rewrite add_spec, Hz, E. reflexivity.
Qed.

Lemma add_zero_r x z y : isZ z -> fin y -> same x y -> same (x + z)%float y.
Proof.
  intros [s Hz] Hy [Hxy | [[sx Hx] [sy Hy']]]; unfold fin in Hy; unfold same.
  - destruct (Prim2SF y) as [sy|sy| |sy m e] eqn:E; try discriminate Hy.
    + right. split; [|exists sy; exact E].
      unfold isZ. rewrite add_spec, Hz, Hxy.
      destruct s, sy; eexists; reflexivity.
    + left. rewrite add_spec, Hz, Hxy. reflexivity.
  - right. split; [|exists sy; exact Hy'].
    unfold isZ. rewrite add_spec, Hz, Hx.
    destruct s, sx; eexists; reflexivity.
Qed.

Lemma isZ_add a b : isZ a -> isZ b -> isZ (a + b)%float.
Proof.
  intros [sa Ha] [sb Hb]. unfold isZ. rewrite add_spec, Ha, Hb.
  destruct sa, sb; eexists; reflexivity.
Qed.

Lemma same_refl x : same x x.
Proof. left. reflexivity. Qed.

(** The four shapes a line of [mat4.multiply] takes, before it is stored,
    when the second matrix is the identity. *)
Lemma identity_line0 a b c d : fin a -> fin b -> fin c -> fin d ->
  same (1 * a + 0 * b + 0 * c + 0 * d)%float a.
Proof.
  intros Ha Hb Hc Hd.
  rewrite mul_one_l by assumption.
  repeat (apply add_zero_r; [now apply mul_zero_l | assumption | ]).
  apply same_refl.
Qed.

Lemma identity_line1 a b c d : fin a -> fin b -> fin c -> fin d ->
  same (0 * a + 1 * b + 0 * c + 0 * d)%float b.
Proof.
  intros Ha Hb Hc Hd.
  rewrite mul_one_l by assumption.
  repeat (apply add_zero_r; [now apply mul_zero_l | assumption | ]).
  apply add_zero_l; [now apply mul_zero_l | assumption].
Qed.

Lemma identity_line2 a b c d : fin a -> fin b -> fin c -> fin d ->
  same (0 * a + 0 * b + 1 * c + 0 * d)%float c.
Proof.
  intros Ha Hb Hc Hd.
  rewrite mul_one_l by assumption.
  apply add_zero_r; [now apply mul_zero_l | assumption | ].
  apply add_zero_l; [|assumption].
  apply isZ_add; now apply mul_zero_l.
Qed.

Lemma identity_line3 a b c d : fin a -> fin b -> fin c -> fin d ->
  same (0 * a + 0 * b + 0 * c + 1 * d)%float d.
Proof.
  intros Ha Hb Hc Hd.
  rewrite mul_one_l by assumption.
  apply add_zero_l; [|assumption].
  repeat apply isZ_add; now apply mul_zero_l.
Qed.

(** *** Storing in single precision *)

Lemma fround_isZ z : isZ z -> fround z = z.
Proof. intros [s Hz]. unfold fround. now rewrite Hz. Qed.

Lemma fround_same x y : same x y -> same (fround x) (fround y).
Proof.
  intros [H | [Hx Hy]].
  - apply Prim2SF_inj in H. subst y. apply same_refl.
  - rewrite (fround_isZ Hx), (fround_isZ Hy). right. now split.
Qed.

Lemma isZ_is_zero z : isZ z -> num_eq z 0%float = true.
Proof.
  intros [s Hz]. unfold num_eq. rewrite eqb_spec, Hz.
  change (Prim2SF 0) with (S754_zero false). reflexivity.
Qed.

Lemma same_same_number x y : same x y -> same_number x y.
Proof.
  intros [H | [Hx Hy]].
  - left. now apply Prim2SF_inj.
  - right. split; now apply isZ_is_zero.
Qed.

(** ** Facts about [render] *)

Lemma consume_lastDecorTransformation p :
  Pipeline.lastDecorTransformation (consume p) = Pipeline.lastDecorTransformation p.
Proof. unfold consume. destruct (Pipeline.nextFrame p); reflexivity. Qed.

(** A tick before any frame was consumed. *)
Lemma render_unseen env props now p :
  Pipeline.seenCamera (consume p) = false ->
  let t := render env props now p in
  Tick.sampled t = None /\ Tick.built t = None /\
  Tick.decorTransformation t = mat4_create /\
  Display.colorTransformation (Tick.display t) = mat4_create /\
  Pipeline.lastDecorTransformation (Tick.after t) = Pipeline.lastDecorTransformation p.
Proof.
  intros Hs. cbv zeta. open_render. rewrite Hs. cbn.
  rewrite consume_lastDecorTransformation. repeat split.
Qed.

(** A tick with a frame seen and decorrelation off. *)
Lemma render_disabled env props now p :
  Pipeline.seenCamera (consume p) = true ->
  enabled (Props.decor props) = None ->
  let t := render env props now p in
  Tick.sampled t = None /\ Tick.built t = None /\
  Tick.decorTransformation t = mat4_create /\
  Pipeline.lastDecorTransformation (Tick.after t) = Pipeline.lastDecorTransformation p.
Proof.
  intros Hs Hd. cbv zeta. open_render. rewrite Hs, Hd. cbn.
  rewrite consume_lastDecorTransformation. repeat split.
Qed.

(** A tick with a frame seen and decorrelation on. *)
Lemma render_enabled env props now p d :
  Pipeline.seenCamera (consume p) = true ->
  enabled (Props.decor props) = Some d ->
  let t := render env props now p in
  exists tex sm,
    Tick.sampled t = Some (tex, sm) /\
    let pixels := Env.sample env tex sm in
    let cov := sumsToCov (sums pixels) in
    let fresh := Env.decorStretcher env cov (means pixels) d in
    Tick.built t = Some (cov, means pixels, d) /\
    Tick.decorTransformation t
      = (if some isNaN fresh then Pipeline.lastDecorTransformation p else fresh) /\
    Pipeline.lastDecorTransformation (Tick.after t)
      = (if some isNaN fresh then Pipeline.lastDecorTransformation p else fresh).
Proof.
  intros Hs Hd. cbv zeta. open_render. rewrite Hs, Hd.
  exists (Pipeline.texture (consume p)), sampleMatrix.
  destruct (some isNaN _); cbn; rewrite ?consume_lastDecorTransformation;
    repeat split.
Qed.

(** The colour transform of a tick with a frame seen. *)
Lemma render_colorTransformation env props now p :
  Pipeline.seenCamera (consume p) = true ->
  let t := render env props now p in
  Display.colorTransformation (Tick.display t) =
    match Props.post props with
    | Some post => mat4_multiply post (Tick.decorTransformation t)
    | None => Tick.decorTransformation t
    end.
Proof.
  intros Hs. cbv zeta. open_render. rewrite Hs.
  destruct (enabled (Props.decor props)); [destruct (some isNaN _)|];
    destruct (Props.post props); reflexivity.
Qed.

(** [Tick.built] tells the case a tick is in. *)
Lemma render_built env props now p cov means d :
  Tick.built (render env props now p) = Some (cov, means, d) ->
  Pipeline.seenCamera (consume p) = true /\ enabled (Props.decor props) = Some d.
Proof.
  open_render.
  destruct (Pipeline.seenCamera (consume p)); [|discriminate].
  destruct (enabled (Props.decor props)) as [d'|]; [|discriminate].
  destruct (some isNaN _); cbn; intros H; inversion H; auto.
Qed.

(** The stored transform after a tick is the one stored before or a freshly
    built one without NaN; either way it holds no NaN if it held none. *)
Lemma render_keeps_NaN_out env props now p :
  some isNaN (Pipeline.lastDecorTransformation p) = false ->
  some isNaN (Pipeline.lastDecorTransformation (Tick.after (render env props now p))) = false.
Proof.
  intros Hp.
  destruct (Pipeline.seenCamera (consume p)) eqn:Hs.
  - destruct (enabled (Props.decor props)) as [d|] eqn:Hd.
    + destruct (render_enabled env props now p Hs Hd) as (tex & sm & _ & _ & _ & Ha).
      cbv zeta in Ha. rewrite Ha.
      destruct (some isNaN (Env.decorStretcher _ _ _ _)) eqn:Hn; assumption.
    + destruct (render_disabled env props now p Hs Hd) as (_ & _ & _ & Ha).
      now rewrite Ha.
  - destruct (render_unseen env props now p Hs) as (_ & _ & _ & _ & Ha).
    now rewrite Ha.
Qed.

Lemma handle_keeps_NaN_out env e st :
  some isNaN (Pipeline.lastDecorTransformation (snd st)) = false ->
  some isNaN (Pipeline.lastDecorTransformation (snd (handle env e st))) = false.
Proof.
  destruct st as [last p]. destruct e as [now frame camera | props timestamp].
  - intros H. exact H.
  - intros H. cbn [handle oncePerTimestamp].
    destruct (differs timestamp last); [|exact H].
    cbn. now apply render_keeps_NaN_out.
Qed.

Lemma run_keeps_NaN_out env events : forall st,
  some isNaN (Pipeline.lastDecorTransformation (snd st)) = false ->
  some isNaN (Pipeline.lastDecorTransformation (snd (run env events st))) = false.
Proof.
  induction events as [|e events IH]; intros st H.
  - exact H.
  - cbn [run fold_left]. apply IH. now apply handle_keeps_NaN_out.
Qed.

(** ** The claims *)

(** C1 (amended: NaN where the claim says non-finite).  In every render
    tick in which decorrelation is enabled and a frame has been seen, the
    builder is called.  If the transform it returns contains a NaN entry,
    the transform of the tick is the last known-good one: the colour
    transform of the draw call is composed from it, and the stored
    transform is left unchanged.  The stored transform is replaced exactly
    when the freshly built one has no NaN entry, and then by that one. *)
Theorem render_holds_last_good_on_NaN env props now p decor :
  Pipeline.seenCamera (consume p) = true ->
  enabled (Props.decor props) = Some decor ->
  let t := render env props now p in
  let lastGood := Pipeline.lastDecorTransformation p in
  let composed := fun m =>
    match Props.post props with
    | Some post => mat4_multiply post m
    | None => m
    end in
  exists cov means,
    Tick.built t = Some (cov, means, decor) /\
    let fresh := Env.decorStretcher env cov means decor in
    (some isNaN fresh = true ->
       Tick.decorTransformation t = lastGood /\
       Display.colorTransformation (Tick.display t) = composed lastGood /\
       Pipeline.lastDecorTransformation (Tick.after t) = lastGood) /\
    (some isNaN fresh = false ->
       Tick.decorTransformation t = fresh /\
       Display.colorTransformation (Tick.display t) = composed fresh /\
       Pipeline.lastDecorTransformation (Tick.after t) = fresh).
Proof.
  intros Hs Hd t lastGood composed.
  destruct (render_enabled env props now p Hs Hd) as (tex & sm & _ & Hb & Ht & Ha).
  cbv zeta in Hb, Ht, Ha.
  pose proof (render_colorTransformation env props now p Hs) as Hc.
  cbv zeta in Hc. fold t in Hb, Ht, Ha, Hc.
  eexists _, _. split; [exact Hb|]. cbv zeta.
  split; intros Hn; rewrite Hn in Ht, Ha; rewrite Hc, Ht, Ha; auto.
Qed.

Lemma render_holds_last_good_on_NaN_witness :
  Pipeline.lastDecorTransformation
    (Tick.after (render Examples.envNaN Examples.propsOnPost 0%float Examples.seenHeld))
  = Examples.held.
Proof.
  destruct (@render_holds_last_good_on_NaN Examples.envNaN Examples.propsOnPost
              0%float Examples.seenHeld 1%float eq_refl eq_refl)
    as (cov & means & _ & Hnan & _).
  apply Hnan. reflexivity.
Defined.

(** C1, as stated, fails: a built transform with an infinite entry and no
    NaN is used for the draw call and replaces the stored transform. *)
Lemma render_keeps_infinite_transform :
  let t := render Examples.envInfinite Examples.propsOn 0%float Examples.seenHeld in
  let fresh :=
    Env.decorStretcher Examples.envInfinite
      (sumsToCov (sums Examples.sums16)) (means Examples.sums16) 1%float in
  Pipeline.seenCamera (consume Examples.seenHeld) = true /\
  enabled (Props.decor Examples.propsOn) = Some 1%float /\
  Tick.built t = Some (sumsToCov (sums Examples.sums16), means Examples.sums16, 1%float) /\
  forallb is_finite fresh = false /\
  Display.colorTransformation (Tick.display t) = fresh /\
  Pipeline.lastDecorTransformation (Tick.after t) = fresh /\
  forallb is_finite (Pipeline.lastDecorTransformation Examples.seenHeld) = true.
Proof. cbv zeta. repeat split. Qed.

(** C2 (amended: free of NaN where the claim says finite).  The held-over
    transform is the identity when the pipeline is created; after every
    sequence of camera frames and render ticks none of its entries is NaN;
    and a tick whose build fails (the built transform holds a NaN) leaves
    it as it was, whatever it was, rather than resetting it. *)
Theorem lastDecorTransformation_never_NaN env :
  Pipeline.lastDecorTransformation initialPipeline = mat4_create /\
  (forall events,
     some isNaN
       (Pipeline.lastDecorTransformation (snd (run env events (None, initialPipeline))))
     = false) /\
  (forall props now p cov means decor,
     Tick.built (render env props now p) = Some (cov, means, decor) ->
     some isNaN (Env.decorStretcher env cov means decor) = true ->
     Pipeline.lastDecorTransformation (Tick.after (render env props now p))
     = Pipeline.lastDecorTransformation p).
Proof.
  split; [reflexivity|]. split.
  - intros events. apply run_keeps_NaN_out. reflexivity.
  - intros props now p cov means decor Hb Hn.
    destruct (render_built _ _ _ _ Hb) as [Hs Hd].
    destruct (render_enabled env props now p Hs Hd) as (tex & sm & _ & Hb' & _ & Ha).
    cbv zeta in Hb', Ha. rewrite Hb' in Hb. inversion Hb; subst.
    rewrite Ha, Hn. reflexivity.
Qed.

Lemma lastDecorTransformation_never_NaN_witness :
  Pipeline.lastDecorTransformation
    (Tick.after (render Examples.envNaN Examples.propsOn 0%float Examples.seenHeld))
  = Pipeline.lastDecorTransformation Examples.seenHeld.
Proof.
  destruct (lastDecorTransformation_never_NaN Examples.envNaN) as (_ & _ & H).
  apply (H Examples.propsOn 0%float Examples.seenHeld
           (sumsToCov (sums Examples.sums16)) (means Examples.sums16) 1%float);
    reflexivity.
Defined.

(** C2, as stated, fails: after a camera frame and one render tick the
    held-over transform has an infinite entry. *)
Lemma lastDecorTransformation_may_be_infinite :
  existsb is_infinity
    (Pipeline.lastDecorTransformation
       (snd (run Examples.envInfinite
               [CameraFrame 0%float (Frame.make 640%float 480%float) 0%nat;
                AnimationFrame Examples.propsOn 1%float]
               (None, initialPipeline))))
  = true.
Proof. reflexivity. Qed.

(** *** The extractor *)

Lemma sumsToCov_entry s i j :
  i < 3 -> j < 3 ->
  entry (sumsToCov s) i j
  = ((s i j - s i 3%nat * s 3%nat j / s 3%nat 3%nat) / (s 3%nat 3%nat - 1))%float.
Proof.
  intros Hi Hj.
  destruct i as [|[|[|i]]]; [| | |lia];
    (destruct j as [|[|[|j]]]; [| | |lia]); reflexivity.
Qed.

Lemma means_entry pixels i :
  i < 3 -> idx (means pixels) i = fround (sums pixels i 3 / sums pixels 3 3)%float.
Proof.
  intros Hi. destruct i as [|[|[|i]]]; [| | |lia]; reflexivity.
Qed.

Lemma render_sampled env props now p tex sm :
  Tick.sampled (render env props now p) = Some (tex, sm) ->
  exists decor,
    Tick.built (render env props now p)
    = Some (sumsToCov (sums (Env.sample env tex sm)),
            means (Env.sample env tex sm), decor).
Proof.
  intros H.
  destruct (Pipeline.seenCamera (consume p)) eqn:Hs.
  - destruct (enabled (Props.decor props)) as [d|] eqn:Hd.
    + destruct (render_enabled env props now p Hs Hd) as (tex' & sm' & Hsm & Hb & _).
      cbv zeta in Hsm, Hb. rewrite Hsm in H. inversion H; subst.
      exists d. exact Hb.
    + destruct (render_disabled env props now p Hs Hd) as (Hn & _).
      cbv zeta in Hn. rewrite Hn in H. discriminate H.
  - destruct (render_unseen env props now p Hs) as (Hn & _).
    cbv zeta in Hn. rewrite Hn in H. discriminate H.
Qed.

(** C3 (amended: the mean is kept in single precision).  For every matrix
    of sums [S] (read from the sixteen sampled values) with
    [n = S[3][3] > 1]: the mean is [S[i][3] / n] rounded to single
    precision, as the vector made by [vec3.fromValues] holds it; the
    covariance is [(S[i][j] - S[i][3] * S[3][j] / n) / (n - 1)], for [i],
    [j] in 0..2; the covariance is symmetric whenever [S] is; and these two
    values are what a render tick that sampled [S] hands to the builder.
    Both are computed by functions of [S] alone. *)
Theorem extractor_formulas (pixels : list number) :
  let S := sums pixels in
  let n := sums pixels 3 3 in
  (1 <? n)%float = true ->
  (forall i, i < 3 ->
     idx (means pixels) i = fround (sums pixels i 3 / n)%float) /\
  (forall i j, i < 3 -> j < 3 ->
     entry (sumsToCov S) i j
     = ((sums pixels i j - sums pixels i 3 * sums pixels 3 j / n) / (n - 1))%float) /\
  ((forall i j, i < 4 -> j < 4 -> sums pixels i j = sums pixels j i) ->
   forall i j, i < 3 -> j < 3 ->
     entry (sumsToCov S) i j = entry (sumsToCov S) j i) /\
  (forall env props now p tex sm,
     Tick.sampled (render env props now p) = Some (tex, sm) ->
     Env.sample env tex sm = pixels ->
     exists decor,
       Tick.built (render env props now p)
       = Some (sumsToCov S, means pixels, decor)).
Proof.
  intros S n Hn. repeat split.
  - intros i Hi. now apply means_entry.
  - intros i j Hi Hj. now apply sumsToCov_entry.
  - intros Hsym i j Hi Hj. unfold S.
    rewrite !sumsToCov_entry by assumption.
    rewrite (Hsym j i), (Hsym j 3), (Hsym 3 i) by lia.
    now rewrite (number_mul_comm (sums pixels 3 j) (sums pixels i 3)).
  - intros env props now p tex sm Hsm Hpx.
    destruct (render_sampled _ _ _ _ Hsm) as [d Hb].
    rewrite Hpx in Hb. exists d. exact Hb.
Qed.

Lemma extractor_formulas_witness :
  entry (sumsToCov (sums Examples.sums16)) 0 1
  = entry (sumsToCov (sums Examples.sums16)) 1 0.
Proof.
  destruct (@extractor_formulas Examples.sums16 eq_refl) as (_ & _ & Hsym & _).
  apply Hsym; [|lia|lia].
  intros i j Hi Hj.
  destruct i as [|[|[|[|i]]]]; [| | | |lia];
    (destruct j as [|[|[|[|j]]]]; [| | | |lia]); reflexivity.
Defined.

(** C3, as stated, fails: for three samples, one of them red, the mean of
    red the tick works with is 0.3333333432674408, the single-precision
    neighbour of the quotient 1/3 = 0.33333333333333331. *)
Lemma means_are_single_precision :
  (1 <? sums MoreExamples.threeSamples 3 3)%float = true /\
  (sums MoreExamples.threeSamples 0 3 / sums MoreExamples.threeSamples 3 3)%float
  = 0x1.5555555555555p-2%float /\
  idx (means MoreExamples.threeSamples) 0 = 0x1.555556p-2%float /\
  num_eq (idx (means MoreExamples.threeSamples) 0)
    (sums MoreExamples.threeSamples 0 3 / sums MoreExamples.threeSamples 3 3)%float
  = false.
Proof. repeat split. Qed.

(** *** The scheduler *)

Lemma requests_app St Res (f : number -> St -> Res * St) ts1 ts2 st :
  requests f (ts1 ++ ts2) st = requests f ts2 (requests f ts1 st).
Proof.
  revert st. induction ts1 as [|t ts1 IH]; intros st; [reflexivity|].
  cbn [app requests]. apply IH.
Qed.

Lemma SFeqb_sym x y : SFeqb x y = SFeqb y x.
Proof.
  unfold SFeqb.
  destruct x as [sx|sx| |sx mx ex], y as [sy|sy| |sy my ey]; cbn [SFcompare];
    try (destruct sx; reflexivity); try (destruct sy; reflexivity);
    try (destruct sx, sy; reflexivity); try reflexivity.
  rewrite (Z.compare_antisym ex ey).
  replace (Pos.compare_cont Eq my mx) with (CompOpp (Pos.compare_cont Eq mx my))
    by apply (Pos.compare_cont_antisym mx my Eq).
  destruct sx, sy; try reflexivity;
    destruct (ex ?= ey)%Z; cbn [CompOpp]; try reflexivity;
    destruct (Pos.compare_cont Eq mx my); reflexivity.
Qed.

Lemma num_neq_sym x y : num_neq x y = num_neq y x.
Proof. unfold num_neq. now rewrite !eqb_spec, SFeqb_sym. Qed.

Lemma num_neq_self t : isNaN t = false -> num_neq t t = false.
Proof. unfold isNaN, is_nan, num_neq. auto. Qed.

(** After a request with timestamp [t], the next request with [t] finds the
    timestamp remembered equal to its own. *)
Lemma oncePerTimestamp_settles St Res (f : number -> St -> Res * St) t st :
  isNaN t = false ->
  differs t (fst (snd (oncePerTimestamp f t st))) = false.
Proof.
  intros Ht. destruct st as [last s]. cbn [oncePerTimestamp].
  destruct (differs t last) eqn:Hd.
  - destruct (f t s) as [r s']. cbn. now apply num_neq_self.
  - exact Hd.
Qed.

Lemma oncePerTimestamp_repeat St Res (f : number -> St -> Res * St) t st :
  isNaN t = false ->
  snd (oncePerTimestamp f t (snd (oncePerTimestamp f t st)))
  = snd (oncePerTimestamp f t st).
Proof.
  intros Ht. pose proof (oncePerTimestamp_settles f t st Ht) as H.
  destruct (snd (oncePerTimestamp f t st)) as [last s]. cbn in H.
  cbn [oncePerTimestamp]. now rewrite H.
Qed.

(** Whatever the wrapped function is, it is executed on the timestamps the
    recorder logs, in that order. *)
Lemma requests_trace St Res (f : number -> St -> Res * St) ts :
  forall last s log,
  exists executed,
    requests recorder ts (last, log)
    = (fst (requests f ts (last, s)), log ++ executed) /\
    snd (requests f ts (last, s))
    = fold_left (fun s t => snd (f t s)) executed s.
Proof.
  induction ts as [|t ts IH]; intros last s log.
  - exists []. cbn. now rewrite app_nil_r.
  - cbn [requests oncePerTimestamp].
    destruct (differs t last).
    + destruct (f t s) as [r s'] eqn:Hf. cbn [recorder snd].
      destruct (IH (Some t) s' (log ++ [t])) as (executed & Hr & Hs).
      exists (t :: executed). rewrite Hr, Hs, <- app_assoc. cbn.
      now rewrite Hf.
    + cbn [snd]. apply IH.
Qed.

(** C4 (amended: per run of equal consecutive timestamps, not per
    timestamp value).  The wrapper remembers the last processed timestamp
    only.  Whatever function it wraps, that function is executed on the
    recorded timestamps.  A request that carries the timestamp of the
    request just before it executes nothing, so two requests with the
    identical timestamp produce exactly one execution; two requests with
    distinct timestamps produce two; and a timestamp that recurs after a
    different one has been processed is executed again.  Timestamps are
    numbers other than NaN. *)
Theorem oncePerTimestamp_dedups_consecutive :
  (forall St Res (f : number -> St -> Res * St) ts s,
     snd (requests f ts (None, s))
     = fold_left (fun s t => snd (f t s)) (invocations ts) s) /\
  (forall ts t, isNaN t = false ->
     invocations (ts ++ [t; t]) = invocations (ts ++ [t])) /\
  (forall t, isNaN t = false -> invocations [t; t] = [t]) /\
  (forall t1 t2, num_neq t1 t2 = true -> invocations [t1; t2] = [t1; t2]) /\
  (forall t1 t2, num_neq t1 t2 = true ->
     invocations [t1; t2; t1] = [t1; t2; t1]).
Proof.
  repeat split.
  - intros St Res f ts s. unfold invocations.
    destruct (requests_trace f ts None s []) as (executed & Hr & Hs).
    rewrite Hr, Hs. reflexivity.
  - intros ts t Ht. unfold invocations.
    rewrite !requests_app. cbn [requests].
    now rewrite oncePerTimestamp_repeat.
  - intros t Ht. unfold invocations. cbn.
    now rewrite (num_neq_self t Ht).
  - intros t1 t2 H. unfold invocations. cbn.
    now rewrite (num_neq_sym t2 t1), H.
  - intros t1 t2 H. unfold invocations. cbn.
    rewrite (num_neq_sym t2 t1), H. cbn. now rewrite H.
Qed.

Lemma oncePerTimestamp_dedups_consecutive_witness :
  invocations [16.5%float; 16.5%float] = [16.5%float] /\
  invocations [16.5%float; 33%float; 16.5%float] = [16.5%float; 33%float; 16.5%float].
Proof.
  destruct oncePerTimestamp_dedups_consecutive as (_ & _ & Hsame & _ & Hrecur).
  split; [apply Hsame | apply Hrecur]; reflexivity.
Defined.

(** C4, as stated, fails: the timestamp 1 recurs after 2 and is executed a
    second time.  (And a NaN timestamp is never recognised as seen.) *)
Lemma oncePerTimestamp_reexecutes_recurring :
  invocations [1%float; 2%float; 1%float] = [1%float; 2%float; 1%float] /\
  List.length (filter (num_eq 1%float) (invocations [1%float; 2%float; 1%float])) = 2%nat /\
  invocations [nan; nan] = [nan; nan].
Proof. repeat split. Qed.

(** *** Before the first frame *)

Lemma consume_unseen p :
  Pipeline.seenCamera (consume p) = false -> consume p = p.
Proof.
  unfold consume. destruct (Pipeline.nextFrame p); [discriminate|reflexivity].
Qed.

Lemma render_after env props now p :
  let q := Tick.after (render env props now p) in
  Pipeline.seenCamera q = Pipeline.seenCamera (consume p) /\
  Pipeline.lastFrame q = Pipeline.lastFrame (consume p) /\
  Pipeline.texture q = Pipeline.texture (consume p).
Proof.
  cbv zeta. open_render.
  destruct (Pipeline.seenCamera (consume p));
    [destruct (enabled (Props.decor props)); [destruct (some isNaN _)|]|];
    repeat split.
Qed.

Lemma render_display env props now p :
  let t := render env props now p in
  let lastFrame := Pipeline.lastFrame (consume p) in
  Display.texture (Tick.display t) = Pipeline.texture (consume p) /\
  Display.width (Tick.display t) = Frame.width lastFrame /\
  Display.height (Tick.display t) = Frame.height lastFrame /\
  Display.positionMatrix (Tick.display t)
  = fst (fst (fst (project env (Props.projection props) lastFrame))).
Proof.
  cbv zeta. open_render.
  destruct (Pipeline.seenCamera (consume p));
    [destruct (enabled (Props.decor props)); [destruct (some isNaN _)|]|];
    repeat split.
Qed.

Lemma handle_placeholder env e st :
  placeholder (snd st) -> placeholder (snd (handle env e st)).
Proof.
  destruct st as [last p]. destruct e as [now frame camera | props timestamp].
  - intros H. exact H.
  - intros H. cbn [handle oncePerTimestamp].
    destruct (differs timestamp last); [|exact H].
    cbn. unfold placeholder in *.
    destruct (render_after env props timestamp p) as (Hs & Hf & Ht).
    cbv zeta in Hs, Hf, Ht. rewrite Hs, Hf, Ht. intros Hu.
    pose proof (consume_unseen p Hu) as Hc. rewrite Hc in *.
    apply H. exact Hu.
Qed.

Lemma run_placeholder env events : forall st,
  placeholder (snd st) -> placeholder (snd (run env events st)).
Proof.
  induction events as [|e events IH]; intros st H; [exact H|].
  cbn [run fold_left]. apply IH. now apply handle_placeholder.
Qed.

(** C5 (amended: the position transform is the identity only without a
    projection).  In every render tick before the first camera frame has
    been consumed, whatever [decor] and [projection] are: the sampler is
    not invoked, and the draw call receives the identity colour transform,
    the initial texture and the 1x1 placeholder dimensions.  Its position
    transform is the identity when no projection function is supplied;
    with one, it is what [mat4scaleThenTranslate2d] builds from the
    projection of the placeholder's aspect ratio 1. *)
Theorem render_before_first_frame env events props now :
  let p := snd (run env events (None, initialPipeline)) in
  Pipeline.seenCamera (consume p) = false ->
  let t := render env props now p in
  Tick.sampled t = None /\
  Display.colorTransformation (Tick.display t) = mat4_create /\
  Display.texture (Tick.display t) = InitialPixel /\
  Display.width (Tick.display t) = 1%float /\
  Display.height (Tick.display t) = 1%float /\
  Display.positionMatrix (Tick.display t) =
    match Props.projection props with
    | None => mat4_create
    | Some projection =>
        let toScreen := Proj.toScreen (projection 1%float) in
        Env.mat4scaleThenTranslate2d env
          (ToScreen.x toScreen) (ToScreen.y toScreen) (ToScreen.scale toScreen)
    end.
Proof.
  intros p Hu t.
  destruct (render_unseen env props now p Hu) as (Hsm & _ & _ & Hc & _).
  destruct (render_display env props now p) as (Ht & Hw & Hh & Hp).
  cbv zeta in Hsm, Hc, Ht, Hw, Hh, Hp. fold t in Hsm, Hc, Ht, Hw, Hh, Hp.
  assert (Hph : placeholder p) by (apply run_placeholder; intros _; split; reflexivity).
  pose proof (consume_unseen p Hu) as Hcs. rewrite Hcs in *.
  destruct (Hph Hu) as [Hf Htex].
  rewrite Hf in Hw, Hh, Hp. rewrite Htex in Ht.
  repeat split; try assumption.
  rewrite Hp. unfold project. destruct (Props.projection props); reflexivity.
Qed.

Lemma render_before_first_frame_witness :
  Display.positionMatrix
    (Tick.display (render Examples.envFinite Examples.propsOn 0%float initialPipeline))
  = mat4_create.
Proof.
  destruct (@render_before_first_frame Examples.envFinite [] Examples.propsOn
              0%float eq_refl) as (_ & _ & _ & _ & _ & H).
  exact H.
Defined.

(** C5, as stated, fails: with a projection supplied the position
    transform of a tick before the first frame is not the identity. *)
Lemma render_before_first_frame_projects :
  let t := render Examples.envFinite Examples.propsZoom 0%float initialPipeline in
  Pipeline.seenCamera (consume initialPipeline) = false /\
  Display.positionMatrix (Tick.display t)
  = Examples.scaleThenTranslate 0%float 0%float 2%float /\
  num_eq (idx (Display.positionMatrix (Tick.display t)) 0) (idx mat4_create 0) = false.
Proof. cbv zeta. repeat split. Qed.

(** *** Initialisation *)

(** C6 (amended: initialisation goes on after the report).  For a canvas
    with a webgl2 context the pipeline is always installed: a sampler with
    1000 samples is constructed and [renderFrame.current] is set, so frame
    requests run [render].  If neither extension is supported, exactly one
    capability error is reported, by [canvasRef] (a render tick reports
    none), and the sampler accumulates in 32 bits.  With the half-float
    extension alone nothing is reported and the sampler accumulates in 16
    bits; with the float extension nothing is reported and it accumulates
    in 32 bits. *)
Theorem canvasRef_extensions node gl :
  Canvas.webgl2 node = Some gl ->
  exists reported statSampler,
    canvasRef (Some node) = Installed reported statSampler (None, initialPipeline) /\
    StatSampler.samples statSampler = 1000%Z /\
    requestFrame (canvasRef (Some node)) = true /\
    (GL.EXT_color_buffer_float gl = false ->
     GL.EXT_color_buffer_half_float gl = false ->
     List.length reported = 1 /\ StatSampler.bitDepth statSampler = 32%Z) /\
    (GL.EXT_color_buffer_float gl = false ->
     GL.EXT_color_buffer_half_float gl = true ->
     reported = [] /\ StatSampler.bitDepth statSampler = 16%Z) /\
    (GL.EXT_color_buffer_float gl = true ->
     reported = [] /\ StatSampler.bitDepth statSampler = 32%Z).
Proof.
  intros Hgl. unfold requestFrame, renderFrame, canvasRef. rewrite Hgl.
  destruct (GL.EXT_color_buffer_float gl), (GL.EXT_color_buffer_half_float gl);
    cbn; eexists _, _; repeat split; try reflexivity; intros; discriminate.
Qed.

Lemma canvasRef_extensions_witness :
  exists reported statSampler,
    canvasRef (Some (Canvas.make (Some (GL.make false true))))
    = Installed reported statSampler (None, initialPipeline) /\
    reported = [] /\ StatSampler.bitDepth statSampler = 16%Z.
Proof.
  destruct (@canvasRef_extensions (Canvas.make (Some (GL.make false true)))
              (GL.make false true) eq_refl)
    as (reported & statSampler & Hi & _ & _ & _ & Hhalf & _).
  exists reported, statSampler. split; [exact Hi|].
  apply Hhalf; reflexivity.
Defined.

(** C6, as stated, fails: with neither extension the error is reported,
    and then the sampler is constructed and [render] is installed; the next
    animation frame executes it. *)
Lemma canvasRef_starts_without_extensions :
  canvasRef (Some Examples.bareCanvas)
  = Installed
      ["Could not get WebGL extenstion EXT_color_buffer_float or EXT_color_buffer_half_float"%string]
      (StatSampler.make 1000 32) (None, initialPipeline) /\
  requestFrame (canvasRef (Some Examples.bareCanvas)) = true /\
  option_map
    (fun st =>
       fst (oncePerTimestamp (renderWith Examples.envFinite Examples.propsOff) 1%float st))
    (renderFrame (canvasRef (Some Examples.bareCanvas)))
  = Some (Some (render Examples.envFinite Examples.propsOff 1%float initialPipeline)).
Proof. repeat split. Qed.

(** *** Composition with the post transform *)

(** Read row by row, as [sums] reads the sampled matrix, [mat4.multiply(out,
    a, b)] is the product of [b] by [a] on its right, each entry stored in
    single precision. *)
Lemma mat4_multiply_entry a b i j :
  i < 4 -> j < 4 ->
  idx (mat4_multiply a b) (i * 4 + j)
  = fround
      (idx b (i * 4 + 0) * idx a (0 * 4 + j)
       + idx b (i * 4 + 1) * idx a (1 * 4 + j)
       + idx b (i * 4 + 2) * idx a (2 * 4 + j)
       + idx b (i * 4 + 3) * idx a (3 * 4 + j))%float.
Proof.
  intros Hi Hj.
  destruct i as [|[|[|[|i]]]]; [| | | |lia];
    (destruct j as [|[|[|[|j]]]]; [| | | |lia]); reflexivity.
Qed.

(** C7.  In every render tick after the first frame has been seen, the
    decorrelation transform of the tick is the identity when decorrelation
    is off, and with decorrelation on it is the transform the builder
    returned for the sampled statistics or, when that one holds a NaN, the
    last known-good one.  With a post transform supplied, the colour
    transform of the draw call is
    [mat4.multiply(out, post, decorTransformation)]: its entry in row [i]
    and column [j] is the sum over [k] of
    [decorTransformation[i][k] * post[k][j]], as the matrix stores it.
    That is the decorrelation transform multiplied by the post transform
    on its right: in a colour times this matrix, the colour meets the
    decorrelation first and the post transform after it.  With no post
    transform, the colour transform is the decorrelation transform
    itself. *)
Theorem render_composes_post_after_decor env props now p :
  Pipeline.seenCamera (consume p) = true ->
  let t := render env props now p in
  let decorT := Tick.decorTransformation t in
  let color := Display.colorTransformation (Tick.display t) in
  (enabled (Props.decor props) = None -> decorT = mat4_create) /\
  (forall decor, enabled (Props.decor props) = Some decor ->
     exists cov means,
       Tick.built t = Some (cov, means, decor) /\
       decorT
       = (if some isNaN (Env.decorStretcher env cov means decor)
          then Pipeline.lastDecorTransformation p
          else Env.decorStretcher env cov means decor)) /\
  (forall post, Props.post props = Some post ->
     color = mat4_multiply post decorT /\
     forall i j, i < 4 -> j < 4 ->
       idx color (i * 4 + j)
       = fround
           (idx decorT (i * 4 + 0) * idx post (0 * 4 + j)
            + idx decorT (i * 4 + 1) * idx post (1 * 4 + j)
            + idx decorT (i * 4 + 2) * idx post (2 * 4 + j)
            + idx decorT (i * 4 + 3) * idx post (3 * 4 + j))%float) /\
  (Props.post props = None -> color = decorT).
Proof.
  intros Hs t decorT color.
  pose proof (render_colorTransformation env props now p Hs) as Hc.
  cbv zeta in Hc. fold t in Hc. fold decorT in Hc. fold color in Hc.
  split; [|split; [|split]].
  - intros Hd.
    destruct (render_disabled env props now p Hs Hd) as (_ & _ & Hi & _).
    exact Hi.
  - intros decor Hd.
    destruct (render_enabled env props now p Hs Hd) as (tex & sm & _ & Hb & Ht & _).
    cbv zeta in Hb, Ht. eexists _, _. split; [exact Hb|exact Ht].
  - intros post Hp. rewrite Hp in Hc. split; [exact Hc|].
    intros i j Hi Hj. rewrite Hc. now apply mat4_multiply_entry.
  - intros Hp. now rewrite Hp in Hc.
Qed.

Lemma render_composes_post_after_decor_witness :
  Display.colorTransformation
    (Tick.display (render Examples.envFinite Examples.propsOnPost 0%float Examples.seen))
  = mat4_multiply Examples.swapRG
      (Tick.decorTransformation
         (render Examples.envFinite Examples.propsOnPost 0%float Examples.seen)) /\
  Tick.decorTransformation
    (render Examples.envFinite Examples.propsOnPost 0%float Examples.seen)
  = Examples.finiteStretcher (sumsToCov (sums Examples.sums16))
      (means Examples.sums16) 1%float.
Proof.
  destruct (@render_composes_post_after_decor Examples.envFinite
              Examples.propsOnPost 0%float Examples.seen eq_refl)
    as (_ & _ & H & _).
  destruct (H Examples.swapRG eq_refl) as [Hc _].
  split; [exact Hc|reflexivity].
Defined.

(** *** Decorrelation disabled *)

(** Multiplying by the identity stores every entry of a finite matrix. *)
Lemma mat4_multiply_identity post :
  List.length post = 16 ->
  forallb is_finite post = true ->
  forall k, k < 16 ->
    same_number (idx (mat4_multiply post mat4_create) k) (fround (idx post k)).
Proof.
  intros Hl Hf.
  do 16 (destruct post as [|? post]; [discriminate Hl|]).
  destruct post; [|discriminate Hl]. clear Hl.
  cbn [forallb] in Hf.
  repeat match type of Hf with
         | (_ && _)%bool = true =>
             let H1 := fresh "Hfin" in
             apply andb_true_iff in Hf; destruct Hf as [H1 Hf];
             apply is_finite_fin in H1
         end.
  clear Hf.
  intros k Hk.
  do 16 (destruct k as [|k];
         [ cbn; apply same_same_number, fround_same;
           first [ now apply identity_line0 | now apply identity_line1
                 | now apply identity_line2 | now apply identity_line3 ] | ]).
  lia.
Qed.

(** C10 (amended: the post transform is stored, not reproduced).  In every
    render tick after the first frame has been seen in which decorrelation
    is disabled, the sampler and the builder are not invoked and the stored
    last-known-good transform is left unchanged.  The colour transform of
    such a tick is the identity when no post transform is supplied; with
    one, it is [mat4.multiply(out, post, identity)], each entry of which is,
    up to the sign of zero, the entry of the post transform rounded to
    single precision, provided the sixteen entries of the post transform
    are finite. *)
Theorem render_decor_disabled env props now p :
  Pipeline.seenCamera (consume p) = true ->
  enabled (Props.decor props) = None ->
  let t := render env props now p in
  let color := Display.colorTransformation (Tick.display t) in
  Tick.sampled t = None /\
  Tick.built t = None /\
  Pipeline.lastDecorTransformation (Tick.after t) = Pipeline.lastDecorTransformation p /\
  (Props.post props = None -> color = mat4_create) /\
  (forall post, Props.post props = Some post ->
     color = mat4_multiply post mat4_create /\
     (List.length post = 16 -> forallb is_finite post = true ->
      forall k, k < 16 -> same_number (idx color k) (fround (idx post k)))).
Proof.
  intros Hs Hd t color.
  destruct (render_disabled env props now p Hs Hd) as (Hsm & Hb & Hi & Ha).
  pose proof (render_colorTransformation env props now p Hs) as Hc.
  cbv zeta in Hsm, Hb, Hi, Ha, Hc. rewrite Hi in Hc.
  fold t in Hsm, Hb, Ha, Hc. fold color in Hc.
  split; [exact Hsm|]. split; [exact Hb|]. split; [exact Ha|]. split.
  - intros Hp. now rewrite Hp in Hc.
  - intros post Hp. rewrite Hp in Hc. split; [exact Hc|].
    intros Hl Hf k Hk. rewrite Hc. now apply mat4_multiply_identity.
Qed.

Lemma render_decor_disabled_witness :
  same_number
    (idx (Display.colorTransformation
            (Tick.display
               (render Examples.envFinite MoreExamples.propsOffTenthPost 0%float
                  Examples.seen)))
       0)
    (fround (idx MoreExamples.tenthPost 0)).
Proof.
  destruct (@render_decor_disabled Examples.envFinite MoreExamples.propsOffTenthPost
              0%float Examples.seen eq_refl eq_refl) as (_ & _ & _ & _ & H).
  destruct (H MoreExamples.tenthPost eq_refl) as [_ Hfin].
  apply Hfin; [reflexivity | reflexivity | lia].
Defined.

(** C10, as stated, fails: a post transform with the entry 0.1 comes out
    with 0.10000000149011612 in its place, the single-precision neighbour
    of 0.1; and a post transform with an infinite entry comes out with NaN
    next to it. *)
Lemma render_decor_disabled_rounds_post :
  let t :=
    render Examples.envFinite MoreExamples.propsOffTenthPost 0%float Examples.seen in
  let color := Display.colorTransformation (Tick.display t) in
  let t' :=
    render Examples.envFinite Examples.propsOffInfinitePost 0%float Examples.seen in
  let color' := Display.colorTransformation (Tick.display t') in
  Pipeline.seenCamera (consume Examples.seen) = true /\
  enabled (Props.decor MoreExamples.propsOffTenthPost) = None /\
  Props.post MoreExamples.propsOffTenthPost = Some MoreExamples.tenthPost /\
  forallb is_finite MoreExamples.tenthPost = true /\
  idx MoreExamples.tenthPost 0 = 0x1.999999999999ap-4%float /\
  idx color 0 = 0x1.99999ap-4%float /\
  num_eq (idx color 0) (idx MoreExamples.tenthPost 0) = false /\
  idx Examples.infinitePost 0 = 1%float /\
  isNaN (idx color' 0) = true.
Proof. cbv zeta. repeat split. Qed.

(** *** The frame loop of the camera *)

Section CameraFacts.

Variable H : Type.
Variable node : Camera.Node.
Variable handler : Camera.Handler H.

Lemma camRef_armed st :
  Camera.frameHandler st = Some handler -> Camera.watching st = [] ->
  armed node handler (Camera.camRef node st).
Proof.
  intros Hh Hw. unfold armed, Camera.camRef, Camera.watch. cbn.
  rewrite Hw. auto.
Qed.

Lemma deliver_armed now metadata st :
  armed node handler st ->
  let st' := Camera.deliver node now metadata st in
  armed node handler st' /\
  Camera.handleAll handler node [(now, metadata)] (Camera.handled st) (Camera.errors st)
  = (Camera.handled st', Camera.errors st').
Proof.
  intros (Hc & Hh & Hw). cbv zeta.
  unfold Camera.deliver. rewrite Hw. cbn [Camera.unregister].
  rewrite Nat.eqb_refl.
  unfold Camera.videoFrameCallback, Camera.otherNode. cbn.
  rewrite Hc, Nat.eqb_refl, Hh. cbn.
  unfold armed, Camera.frameOf.
  destruct (handler now _ node (Camera.handled st)); cbn; auto.
Qed.

Lemma handleAll_cons f frames h errs :
  Camera.handleAll handler node (f :: frames) h errs
  = Camera.handleAll handler node frames
      (fst (Camera.handleAll handler node [f] h errs))
      (snd (Camera.handleAll handler node [f] h errs)).
Proof.
  cbn [Camera.handleAll].
  destruct (handler (fst f) (Camera.frameOf node (snd f)) node h); reflexivity.
Qed.

Lemma deliveries_armed frames : forall st,
  armed node handler st ->
  let st' := Camera.deliveries node frames st in
  armed node handler st' /\
  Camera.handleAll handler node frames (Camera.handled st) (Camera.errors st)
  = (Camera.handled st', Camera.errors st').
Proof.
  induction frames as [|[now metadata] frames IH]; intros st Ha; cbv zeta.
  - split; [exact Ha|reflexivity].
  - cbn [Camera.deliveries fold_left fst snd].
    destruct (deliver_armed now metadata Ha) as [Ha' Hstep].
    destruct (IH _ Ha') as [Ha'' Hrest].
    split; [exact Ha''|].
    rewrite handleAll_cons, Hstep. exact Hrest.
Qed.

(** C9.  For every delivered video frame whose handler throws, the
    exception is given to [onError] and the callback is registered again.
    Hence, from the moment the node is mounted, after any sequence of
    delivered frames the callback is still registered, and the handler has
    been called on every one of the frames whether or not it threw on
    earlier ones; the errors reported are exactly the exceptions thrown. *)
Theorem frame_loop_survives_exceptions :
  (forall now frame st error h,
     Camera.otherNode st node = false ->
     Camera.frameHandler st = Some handler ->
     handler now frame node (Camera.handled st) = Camera.Threw error h ->
     let st' := Camera.videoFrameCallback node now frame st in
     Camera.errors st' = Camera.errors st ++ [error] /\
     Camera.watching st' = Camera.watching st ++ [Camera.id node]) /\
  (forall frames st,
     Camera.frameHandler st = Some handler ->
     Camera.watching st = [] ->
     let st' := Camera.deliveries node frames (Camera.camRef node st) in
     Camera.watching st' = [Camera.id node] /\
     (Camera.handled st', Camera.errors st')
     = Camera.handleAll handler node frames (Camera.handled st) (Camera.errors st)).
Proof.
  split.
  - intros now frame st error h Hg Hh Ht. cbv zeta.
    unfold Camera.videoFrameCallback. rewrite Hg, Hh, Ht. split; reflexivity.
  - intros frames st Hh Hw. cbv zeta.
    destruct (deliveries_armed frames (camRef_armed st Hh Hw)) as [(_ & _ & Ha) Hall].
    split; [exact Ha|]. symmetry. exact Hall.
Qed.

End CameraFacts.

Lemma frame_loop_survives_exceptions_witness :
  let st' :=
    Camera.deliveries Examples.videoNode Examples.threeFrames
      (Camera.camRef Examples.videoNode Examples.unmounted) in
  Camera.watching st' = [7] /\
  (Camera.handled st', Camera.errors st') = (3, ["narrow frame"%string]).
Proof.
  destruct (frame_loop_survives_exceptions Examples.videoNode Examples.touchy)
    as [_ Hloop].
  exact (Hloop Examples.threeFrames Examples.unmounted eq_refl eq_refl).
Defined.

(** *** The builder of the specification *)

Section DecorSpecFacts.

Variable K : Type.
Variables (kO kI : K) (kadd kmul ksub : K -> K -> K) (kopp : K -> K).
Hypothesis Kring : ring_theory kO kI kadd kmul ksub kopp (@eq K).
Variable eigenvectors : DecorSpec.mat K -> DecorSpec.mat K.
Variable eigenvalues : DecorSpec.mat K -> DecorSpec.vec K.
Variable Decor : Type.
Variable rescale : Decor -> K -> K.

Add Ring KringRing : Kring.


End DecorSpecFacts.



(** ** Further properties of the code *)

(** *** [stopStream] *)

Lemma stop_In track ended u :
  In u (Stream.stop track ended) <-> In u ended \/ u = track.
Proof.
  unfold Stream.stop.
  destruct (existsb (Nat.eqb track) ended) eqn:He.
  - split; [auto|]. intros [Hu | Hu]; [exact Hu|]. subst u.
    apply existsb_exists in He. destruct He as (v & Hv & Hvt).
    apply Nat.eqb_eq in Hvt. now subst v.
  - rewrite in_app_iff. cbn. intuition.
Qed.

Lemma removeTrack_In track stream u :
  In u (Stream.tracks (Stream.removeTrack track stream))
  <-> In u (Stream.tracks stream) /\ u <> track.
Proof.
  unfold Stream.removeTrack. cbn. rewrite filter_In, negb_true_iff, Nat.eqb_neq.
  reflexivity.
Qed.

(** Going through an array of tracks: those tracks leave the stream and
    end, nothing else changes. *)
Lemma stopStream_forEach l : forall stream ended,
  let r :=
    fold_left
      (fun acc track =>
         (Stream.removeTrack track (fst acc), Stream.stop track (snd acc)))
      l (stream, ended) in
  (forall u, In u (Stream.tracks (fst r)) <-> In u (Stream.tracks stream) /\ ~ In u l) /\
  (forall u, In u (snd r) <-> In u ended \/ In u l).
Proof.
  induction l as [|track l IH]; intros stream ended; cbv zeta.
  - cbn. split; intros u; intuition.
  - cbn [fold_left fst snd].
    destruct (IH (Stream.removeTrack track stream) (Stream.stop track ended))
      as [Ht He].
    cbv zeta in Ht, He. split; intros u.
    + rewrite Ht, removeTrack_In. cbn [In]. intuition.
    + rewrite He, stop_In. cbn [In]. intuition.
Qed.

(** X1.  [stopStream] on a stream empties it and ends its tracks: afterwards
    the stream holds no track, every track it held has ended, and the
    tracks that have ended are those that had ended before and those of the
    stream, no other.  On a missing stream it does nothing. *)
Theorem stopStream_stops_every_track :
  (forall stream ended,
     exists emptied,
       fst (Stream.stopStream (Some stream) ended) = Some emptied /\
       Stream.tracks emptied = [] /\
       forall u,
         In u (snd (Stream.stopStream (Some stream) ended))
         <-> In u ended \/ In u (Stream.tracks stream)) /\
  (forall ended, Stream.stopStream None ended = (None, ended)).
Proof.
  split; [|reflexivity].
  intros stream ended. unfold Stream.stopStream.
  destruct (stopStream_forEach (Stream.tracks stream) stream ended) as [Ht He].
  cbv zeta in Ht, He. cbn [fst snd].
  set (r := fold_left _ _ _) in *.
  exists (fst r). split; [reflexivity|]. split; [|exact He].
  destruct (Stream.tracks (fst r)) as [|u rest] eqn:E; [reflexivity|].
  exfalso. destruct (Ht u) as [Hu _].
  destruct Hu as [Hin Hnot]; [now left|]. now apply Hnot.
Qed.

(** *** Frames through [render] *)

Lemma consume_nextFrame p : Pipeline.nextFrame (consume p) = None.
Proof.
  unfold consume. destruct (Pipeline.nextFrame p) eqn:E; [reflexivity|exact E].
Qed.

Lemma consume_idle p : Pipeline.nextFrame p = None -> consume p = p.
Proof. intros H. unfold consume. now rewrite H. Qed.

Lemma render_after_nextFrame env props now p :
  Pipeline.nextFrame (Tick.after (render env props now p)) = None.
Proof.
  open_render.
  destruct (Pipeline.seenCamera (consume p));
    [destruct (enabled (Props.decor props)); [destruct (some isNaN _)|]|];
    cbn; apply consume_nextFrame.
Qed.

(** X2.  The pending frame is a slot of one: of two camera frames that
    arrive before a tick, the tick shows the later one, with its own
    dimensions, and leaves no frame pending; the earlier one is never
    shown.  The frame is consumed once: the tick after, with no new frame,
    shows the same image and dimensions again. *)
Theorem render_shows_latest_frame env props now p now1 frame1 camera1 now2 frame2 camera2 :
  let pending :=
    onCameraFrame now2 frame2 camera2 (onCameraFrame now1 frame1 camera1 p) in
  let t := render env props now pending in
  Display.texture (Tick.display t) = CameraImage camera2 /\
  Display.width (Tick.display t) = Frame.width frame2 /\
  Display.height (Tick.display t) = Frame.height frame2 /\
  Pipeline.nextFrame (Tick.after t) = None /\
  Pipeline.seenCamera (Tick.after t) = true /\
  forall props' now',
    let t' := render env props' now' (Tick.after t) in
    Display.texture (Tick.display t') = CameraImage camera2 /\
    Display.width (Tick.display t') = Frame.width frame2 /\
    Display.height (Tick.display t') = Frame.height frame2.
Proof.
  intros pending t.
  destruct (render_display env props now pending) as (Ht & Hw & Hh & _).
  destruct (render_after env props now pending) as (Hs & Hf & Hx).
  pose proof (render_after_nextFrame env props now pending) as Hn.
  cbv zeta in Ht, Hw, Hh, Hs, Hf, Hx. fold t in Ht, Hw, Hh, Hs, Hf, Hx, Hn.
  repeat split; try assumption.
  - destruct (render_display env props' now' (Tick.after t)) as (Ht' & _).
    cbv zeta in Ht'. rewrite Ht', (consume_idle _ Hn). exact Hx.
  - destruct (render_display env props' now' (Tick.after t)) as (_ & Hw' & _).
    cbv zeta in Hw'. rewrite Hw', (consume_idle _ Hn), Hf. reflexivity.
  - destruct (render_display env props' now' (Tick.after t)) as (_ & _ & Hh' & _).
    cbv zeta in Hh'. rewrite Hh', (consume_idle _ Hn), Hf. reflexivity.
Qed.

(** *** What the sampler sees *)

Lemma consume_uploaded p : uploaded p -> uploaded (consume p).
Proof.
  unfold uploaded, consume. intros H.
  destruct (Pipeline.nextFrame p) as [next|]; [|exact H].
  intros _. cbn. eauto.
Qed.

Lemma render_uploaded env props now p :
  uploaded p -> uploaded (Tick.after (render env props now p)).
Proof.
  intros H. apply consume_uploaded in H. unfold uploaded in *.
  destruct (render_after env props now p) as (Hs & _ & Ht).
  cbv zeta in Hs, Ht. rewrite Hs, Ht. exact H.
Qed.

Lemma handle_uploaded env e st : uploaded (snd st) -> uploaded (snd (handle env e st)).
Proof.
  destruct st as [last p]. destruct e as [now frame camera | props timestamp].
  - intros H. exact H.
  - intros H. cbn [handle oncePerTimestamp].
    destruct (differs timestamp last); [|exact H].
    cbn. now apply render_uploaded.
Qed.

Lemma run_uploaded env events : forall st,
  uploaded (snd st) -> uploaded (snd (run env events st)).
Proof.
  induction events as [|e events IH]; intros st H; [exact H|].
  cbn [run fold_left]. apply IH. now apply handle_uploaded.
Qed.

Lemma handle_seenCamera env e st :
  Pipeline.seenCamera (snd st) = true ->
  Pipeline.seenCamera (snd (handle env e st)) = true.
Proof.
  destruct st as [last p]. destruct e as [now frame camera | props timestamp].
  - intros H. exact H.
  - intros H. cbn [handle oncePerTimestamp].
    destruct (differs timestamp last); [|exact H].
    cbn. destruct (render_after env props timestamp p) as (Hs & _).
    cbv zeta in Hs. rewrite Hs. unfold consume.
    destruct (Pipeline.nextFrame p); [reflexivity|exact H].
Qed.

Lemma render_sampled_texture env props now p tex sm :
  Tick.sampled (render env props now p) = Some (tex, sm) ->
  Pipeline.seenCamera (consume p) = true /\ tex = Pipeline.texture (consume p).
Proof.
  open_render.
  destruct (Pipeline.seenCamera (consume p)); [|discriminate].
  destruct (enabled (Props.decor props)); [|discriminate].
  destruct (some isNaN _); cbn; intros H; inversion H; auto.
Qed.

(** X3.  Once a frame has been consumed the pipeline never counts as
    unseen again, whatever events follow; and in every tick the pipeline
    can reach, the texture handed to the sampler is an image copied from the
    camera, never the pixel the texture was created with. *)
Theorem sampler_sees_camera_images env :
  (forall events st,
     Pipeline.seenCamera (snd st) = true ->
     Pipeline.seenCamera (snd (run env events st)) = true) /\
  (forall events props now tex sm,
     Tick.sampled
       (render env props now (snd (run env events (None, initialPipeline))))
     = Some (tex, sm) ->
     exists camera, tex = CameraImage camera).
Proof.
  split.
  - intros events. induction events as [|e events IH]; intros st H; [exact H|].
    cbn [run fold_left]. apply IH. now apply handle_seenCamera.
  - intros events props now tex sm H.
    destruct (render_sampled_texture _ _ _ _ H) as [Hs Ht]. subst tex.
    assert (Hu : uploaded (snd (run env events (None, initialPipeline)))).
    { apply run_uploaded. intros Hseen. discriminate Hseen. }
    apply consume_uploaded in Hu. now apply Hu.
Qed.

Lemma sampler_sees_camera_images_witness :
  exists camera,
    Pipeline.texture
      (consume
         (snd (run Examples.envFinite
                 [CameraFrame 0%float MoreExamples.small 5]
                 (None, initialPipeline))))
    = CameraImage camera.
Proof.
  destruct (sampler_sees_camera_images Examples.envFinite) as [_ H].
  apply (H [CameraFrame 0%float MoreExamples.small 5] Examples.propsOn 1%float
           _ mat3_create).
  reflexivity.
Defined.

Lemma handle_tick_keeps_image env props timestamp st :
  Pipeline.nextFrame (snd st) = None ->
  let st' := handle env (AnimationFrame props timestamp) st in
  Pipeline.nextFrame (snd st') = None /\
  Pipeline.texture (snd st') = Pipeline.texture (snd st) /\
  Pipeline.lastFrame (snd st') = Pipeline.lastFrame (snd st) /\
  Pipeline.seenCamera (snd st') = Pipeline.seenCamera (snd st).
Proof.
  destruct st as [last p]. cbn [snd]. intros Hn. cbv zeta.
  cbn [handle oncePerTimestamp].
  destruct (differs timestamp last); [|cbn; auto].
  cbn [snd renderWith].
  destruct (render_after env props timestamp p) as (Hs & Hf & Ht).
  cbv zeta in Hs, Hf, Ht. rewrite (consume_idle p Hn) in Hs, Hf, Ht.
  split; [apply render_after_nextFrame|]. auto.
Qed.

(** X4.  Without new camera frames the display holds the last image: after
    any number of render ticks, whatever their props and timestamps, the
    texture, the frame dimensions and the seen flag are what they were, and
    no frame is pending. *)
Theorem ticks_hold_last_image env events : forall st,
  forallb isTick events = true ->
  Pipeline.nextFrame (snd st) = None ->
  let st' := run env events st in
  Pipeline.nextFrame (snd st') = None /\
  Pipeline.texture (snd st') = Pipeline.texture (snd st) /\
  Pipeline.lastFrame (snd st') = Pipeline.lastFrame (snd st) /\
  Pipeline.seenCamera (snd st') = Pipeline.seenCamera (snd st).
Proof.
  induction events as [|e events IH]; intros st Hticks Hn; cbv zeta.
  - cbn. auto.
  - cbn [forallb] in Hticks. apply andb_true_iff in Hticks.
    destruct Hticks as [He Hrest].
    destruct e as [now frame camera | props timestamp]; [discriminate He|].
    destruct (handle_tick_keeps_image env props timestamp st Hn)
      as (Hn' & Ht & Hf & Hs).
    cbv zeta in Hn', Ht, Hf, Hs.
    cbn [run fold_left].
    destruct (IH _ Hrest Hn') as (Hn'' & Ht' & Hf' & Hs').
    cbv zeta in Hn'', Ht', Hf', Hs'. unfold run in *.
    rewrite Ht', Hf', Hs', Ht, Hf, Hs. auto.
Qed.

Lemma ticks_hold_last_image_witness :
  Pipeline.texture
    (snd (run Examples.envFinite
            [AnimationFrame Examples.propsOn 1%float;
             AnimationFrame Examples.propsOffPost 2%float;
             AnimationFrame Examples.propsZoom 3%float]
            (None, Examples.seen)))
  = CameraImage 0.
Proof.
  destruct (@ticks_hold_last_image Examples.envFinite
              [AnimationFrame Examples.propsOn 1%float;
               AnimationFrame Examples.propsOffPost 2%float;
               AnimationFrame Examples.propsZoom 3%float]
              (None, Examples.seen) eq_refl eq_refl) as (_ & H & _).
  exact H.
Defined.

(** X5.  A capture request changes nothing but the capture: with and
    without it a tick calls the sampler and the builder alike, draws with
    the same colour transform, position transform, texture and dimensions,
    and leaves the same variables.  The request is handed to the export
    and the draw call receives a resolution exactly when there is one;
    without a projection that resolution is the size of the last frame. *)
Theorem capture_only_adds_resolution env decor post projection capture now p :
  let t1 := render env (Props.make decor post projection (Some capture)) now p in
  let t0 := render env (Props.make decor post projection None) now p in
  Tick.sampled t1 = Tick.sampled t0 /\
  Tick.built t1 = Tick.built t0 /\
  Tick.after t1 = Tick.after t0 /\
  Display.colorTransformation (Tick.display t1)
  = Display.colorTransformation (Tick.display t0) /\
  Display.positionMatrix (Tick.display t1)
  = Display.positionMatrix (Tick.display t0) /\
  Display.texture (Tick.display t1) = Display.texture (Tick.display t0) /\
  Display.width (Tick.display t1) = Display.width (Tick.display t0) /\
  Display.height (Tick.display t1) = Display.height (Tick.display t0) /\
  Tick.saved t1 = Some capture /\ Tick.saved t0 = None /\
  Display.resolution (Tick.display t0) = None /\
  (exists resolution, Display.resolution (Tick.display t1) = Some resolution) /\
  (projection = None ->
   Display.resolution (Tick.display t1)
   = Some (Frame.width (Pipeline.lastFrame (consume p)),
           Frame.height (Pipeline.lastFrame (consume p)))).
Proof.
  cbv zeta. unfold render. cbn [Props.projection Props.decor Props.post Props.captureSignal].
  destruct (project env projection (Pipeline.lastFrame (consume p)))
    as [[[positionMatrix sampleMatrix] displayedWidth] displayedHeight] eqn:Hp.
  assert (Hnone : projection = None ->
            (displayedWidth, displayedHeight)
            = (Frame.width (Pipeline.lastFrame (consume p)),
               Frame.height (Pipeline.lastFrame (consume p)))).
  { intros ->. cbn in Hp. now inversion Hp. }
  destruct (Pipeline.seenCamera (consume p));
    [destruct (enabled decor); [destruct (some isNaN _)|]|];
    cbn; repeat split; eauto; intros H; now rewrite (Hnone H).
Qed.

(** X6.  A tick whose timestamp equals the last processed one draws
    nothing and consumes nothing: a camera frame that arrives after the
    tick of a timestamp stays pending through further ticks of that
    timestamp, with the texture as it was, and is shown by the first tick
    with a different timestamp. *)
Theorem repeated_tick_leaves_frame_pending env props props' props'' t t' now frame camera st :
  isNaN t = false ->
  differs t (fst st) = true ->
  num_neq t' t = true ->
  let st1 := handle env (AnimationFrame props t) st in
  let st2 :=
    handle env (AnimationFrame props' t)
      (handle env (CameraFrame now frame camera) st1) in
  let st3 := handle env (AnimationFrame props'' t') st2 in
  Pipeline.nextFrame (snd st2) = Some (NextFrame.make frame camera) /\
  Pipeline.texture (snd st2) = Pipeline.texture (snd st1) /\
  Pipeline.lastFrame (snd st2) = Pipeline.lastFrame (snd st1) /\
  Pipeline.nextFrame (snd st3) = None /\
  Pipeline.texture (snd st3) = CameraImage camera /\
  Pipeline.lastFrame (snd st3) = frame.
Proof.
  intros Ht Hd Hd'. destruct st as [last p]. cbn [fst] in Hd. cbv zeta.
  cbn [handle oncePerTimestamp]. rewrite Hd. cbn [snd fst renderWith differs].
  rewrite (num_neq_self t Ht). cbn [snd fst differs].
  cbn [oncePerTimestamp differs]. rewrite Hd'.
  cbn [snd renderWith onCameraFrame Pipeline.nextFrame Pipeline.texture
       Pipeline.lastFrame].
  repeat split.
  - apply render_after_nextFrame.
  - destruct (render_after env props'' t'
                (onCameraFrame now frame camera (Tick.after (render env props t p))))
      as (_ & _ & Hx).
    exact Hx.
  - destruct (render_after env props'' t'
                (onCameraFrame now frame camera (Tick.after (render env props t p))))
      as (_ & Hf & _).
    exact Hf.
Qed.

Lemma repeated_tick_leaves_frame_pending_witness :
  Pipeline.nextFrame
    (snd (handle Examples.envFinite (AnimationFrame Examples.propsOn 1%float)
            (handle Examples.envFinite (CameraFrame 1%float MoreExamples.large 9)
               (handle Examples.envFinite (AnimationFrame Examples.propsOn 1%float)
                  (None, Examples.seen)))))
  = Some (NextFrame.make MoreExamples.large 9).
Proof.
  destruct (@repeated_tick_leaves_frame_pending Examples.envFinite
              Examples.propsOn Examples.propsOn Examples.propsOn
              1%float 2%float 1%float MoreExamples.large 9 (None, Examples.seen)
              eq_refl eq_refl eq_refl) as (H & _).
  exact H.
Defined.

(** X7.  A strength that JavaScript counts as false (0, -0 or NaN) turns
    decorrelation off like an absent one: the tick is the same in
    everything it does, in particular neither the sampler nor the builder
    is called.  Every other strength is handed to the builder as it is. *)
Theorem falsy_decor_is_off env post projection capture now p d :
  (truthy d = false ->
   render env (Props.make (Some d) post projection capture) now p
   = render env (Props.make None post projection capture) now p) /\
  (truthy d = false <-> num_eq d 0%float = true \/ isNaN d = true) /\
  (truthy d = true ->
   Pipeline.seenCamera (consume p) = true ->
   exists cov means,
     Tick.built (render env (Props.make (Some d) post projection capture) now p)
     = Some (cov, means, d)).
Proof.
  split; [|split].
  - intros Hd. unfold render. cbn [Props.decor enabled]. now rewrite Hd.
  - unfold truthy, num_eq.
    destruct (d =? 0)%float, (isNaN d); cbn; intuition discriminate.
  - intros Hd Hs.
    destruct (@render_enabled env (Props.make (Some d) post projection capture)
                now p d Hs) as (tex & sm & _ & Hb & _).
    { cbn. now rewrite Hd. }
    cbv zeta in Hb. eauto.
Qed.

Lemma falsy_decor_is_off_witness :
  render Examples.envFinite (Props.make (Some (-0)%float) None None None)
    0%float Examples.seen
  = render Examples.envFinite (Props.make None None None None) 0%float Examples.seen.
Proof.
  destruct (@falsy_decor_is_off Examples.envFinite None None None 0%float
              Examples.seen (-0)%float) as (H & _).
  apply H. reflexivity.
Defined.

(** *** The region the sampler measures *)

Lemma mul_one_r a : fin a -> (a * 1)%float = a.
Proof. intros H. rewrite number_mul_comm. now apply mul_one_l. Qed.

Lemma mul_zero_r a : fin a -> isZ (a * 0)%float.
Proof. intros H. rewrite number_mul_comm. now apply mul_zero_l. Qed.

Lemma isZ_zero : isZ 0%float.
Proof. exists false. reflexivity. Qed.

Lemma fin_one : fin 1%float.
Proof. reflexivity. Qed.

Lemma fround_zero : fround 0%float = 0%float.
Proof. reflexivity. Qed.

Lemma fround_one : fround 1%float = 1%float.
Proof. reflexivity. Qed.

Lemma isZ_same_number_zero z : isZ z -> same_number (fround z) 0%float.
Proof.
  intros Hz. rewrite (fround_isZ Hz). right.
  split; [now apply isZ_is_zero|reflexivity].
Qed.

(** The sample matrix the projection block builds: the scale on the
    diagonal, the translation in the last line, each as the arrays it went
    through hold it. *)
Lemma sampleMatrix_entries tx ty wr hr :
  fin (fround tx) -> fin (fround ty) -> fin (fround wr) -> fin (fround hr) ->
  forall k, k < 9 ->
    same_number
      (idx (mat3_scale (mat3_translate mat3_create (vec2_fromValues tx ty))
              (vec2_fromValues wr hr)) k)
      (idx [fround (fround wr); 0%float; 0%float;
            0%float; fround (fround hr); 0%float;
            fround (fround (fround tx)); fround (fround (fround ty)); 1%float] k).
Proof.
  intros Htx Hty Hwr Hhr k Hk.
  unfold mat3_scale, mat3_translate, vec2_fromValues, mat3_create, idx.
  destruct k as [|[|[|[|[|[|[|[|[|k]]]]]]]]]; [| | | | | | | | |lia];
    cbn [nth]; rewrite ?fround_one, ?fround_zero.
  - rewrite mul_one_r by assumption. now left.
  - apply isZ_same_number_zero. now apply mul_zero_r.
  - apply isZ_same_number_zero. now apply mul_zero_r.
  - apply isZ_same_number_zero. now apply mul_zero_r.
  - rewrite mul_one_r by assumption. now left.
  - apply isZ_same_number_zero. now apply mul_zero_r.
  - apply same_same_number. do 2 apply fround_same.
    rewrite mul_one_r by assumption.
    apply add_zero_r; [exact isZ_zero|exact Htx|].
    apply add_zero_r; [now apply mul_zero_r|exact Htx|apply same_refl].
  - apply same_same_number. do 2 apply fround_same.
    rewrite mul_one_r by assumption.
    apply add_zero_r; [exact isZ_zero|exact Hty|].
    apply add_zero_l; [now apply mul_zero_r|exact Hty].
  - apply same_same_number.
    assert (Hs : same (fround (fround (fround tx * 0 + fround ty * 0 + 1)%float))
                   (fround (fround 1%float))).
    { do 2 apply fround_same.
      apply add_zero_l; [|exact fin_one].
      apply isZ_add; now apply mul_zero_r. }
    rewrite fround_one, fround_one in Hs. exact Hs.
Qed.

Lemma render_sampled_matrix env props now p d :
  Pipeline.seenCamera (consume p) = true ->
  enabled (Props.decor props) = Some d ->
  Tick.sampled (render env props now p)
  = Some (Pipeline.texture (consume p),
          snd (fst (fst (project env (Props.projection props)
                           (Pipeline.lastFrame (consume p)))))).
Proof.
  intros Hs Hd. open_render. rewrite Hs, Hd.
  destruct (some isNaN _); reflexivity.
Qed.

(** X8.  In a tick that samples, the sampler measures what is on screen.
    Without a projection its sample matrix is the identity: the whole
    texture.  With a projection, the sample matrix has the width and the
    height of the screen bounds relative to the image on its diagonal and,
    in its last line, the left and the top bound relative to the image
    plus one half each; every other entry is 0, the last one 1.  The four
    numbers appear as the single-precision arrays they went through hold
    them (rounded once by each array), up to the sign of zero, and are
    required to be finite as the first array holds them. *)
Theorem sampler_measures_screen_bounds env props now p d :
  Pipeline.seenCamera (consume p) = true ->
  enabled (Props.decor props) = Some d ->
  let t := render env props now p in
  let lastFrame := Pipeline.lastFrame (consume p) in
  (Props.projection props = None ->
   Tick.sampled t = Some (Pipeline.texture (consume p), mat3_create)) /\
  (forall projection, Props.projection props = Some projection ->
     let proj := projection (Frame.width lastFrame / Frame.height lastFrame)%float in
     let bounds := Proj.screenBoundsInImage proj in
     let tx := (1 / 2 + Bounds.left bounds / Proj.imageWidth proj)%float in
     let ty := (1 / 2 + Bounds.top bounds / Proj.imageHeight proj)%float in
     let wr := ((Bounds.right bounds - Bounds.left bounds) / Proj.imageWidth proj)%float in
     let hr := ((Bounds.bottom bounds - Bounds.top bounds) / Proj.imageHeight proj)%float in
     is_finite (fround tx) = true -> is_finite (fround ty) = true ->
     is_finite (fround wr) = true -> is_finite (fround hr) = true ->
     exists sampleMatrix,
       Tick.sampled t = Some (Pipeline.texture (consume p), sampleMatrix) /\
       forall k, k < 9 ->
         same_number (idx sampleMatrix k)
           (idx [fround (fround wr); 0%float; 0%float;
                 0%float; fround (fround hr); 0%float;
                 fround (fround (fround tx)); fround (fround (fround ty));
                 1%float] k)).
Proof.
  intros Hs Hd t lastFrame.
  pose proof (render_sampled_matrix env props now p Hs Hd) as Hm.
  fold t in Hm. fold lastFrame in Hm. split.
  - intros Hp. rewrite Hp in Hm. exact Hm.
  - intros projection Hp proj bounds tx ty wr hr Htx Hty Hwr Hhr.
    rewrite Hp in Hm. eexists. split; [exact Hm|].
    cbn [project fst snd].
    apply sampleMatrix_entries; now apply is_finite_fin.
Qed.

Lemma sampler_measures_screen_bounds_witness :
  exists sampleMatrix,
    Tick.sampled (render Examples.envFinite Examples.propsZoom 0%float Examples.seen)
    = Some (CameraImage 0, sampleMatrix) /\
    forall k, k < 9 ->
      same_number (idx sampleMatrix k)
        (idx [0.5; 0; 0; 0; 0.5; 0; 0.25; 0.25; 1]%float k).
Proof.
  destruct (@sampler_measures_screen_bounds Examples.envFinite Examples.propsZoom
              0%float Examples.seen 1%float eq_refl eq_refl) as [_ H].
  exact (H Examples.zoom eq_refl eq_refl eq_refl eq_refl eq_refl).
Defined.

(** *** Too few samples *)

Lemma nonfinite_is_finite x : sf_nonfinite (Prim2SF x) = true -> is_finite x = false.
Proof.
  unfold is_finite, is_nan, is_infinity.
  rewrite !eqb_spec, abs_spec.
  change (Prim2SF infinity) with (S754_infinity false).
  destruct (Prim2SF x) as [s|s| |s m e]; try discriminate; intros _;
    [destruct s|]; reflexivity.
Qed.

Lemma num_eq_zero_isZ n : num_eq n 0%float = true -> isZ n.
Proof.
  unfold num_eq, isZ. rewrite eqb_spec.
  change (Prim2SF 0) with (S754_zero false).
  destruct (Prim2SF n) as [s|s| |s m e]; [eauto| | |];
    try destruct s; cbv; discriminate.
Qed.

Lemma div_by_zero x z : isZ z -> sf_nonfinite (Prim2SF (x / z)%float) = true.
Proof.
  intros [s Hz]. rewrite div_spec, Hz.
  destruct (Prim2SF x) as [sx|sx| |sx m e]; reflexivity.
Qed.

Lemma div_of_nonfinite x y :
  sf_nonfinite (Prim2SF x) = true -> sf_nonfinite (Prim2SF (x / y)%float) = true.
Proof.
  rewrite div_spec.
  destruct (Prim2SF x) as [sx|sx| |sx m e]; try discriminate; intros _;
    destruct (Prim2SF y) as [sy|sy| |sy my ey]; reflexivity.
Qed.

Lemma sub_nonfinite a q :
  sf_nonfinite (Prim2SF q) = true -> sf_nonfinite (Prim2SF (a - q)%float) = true.
Proof.
  rewrite sub_spec.
  destruct (Prim2SF q) as [sq|sq| |sq mq eq]; try discriminate; intros _;
    destruct (Prim2SF a) as [sa|sa| |sa ma ea]; try reflexivity;
    destruct sa, sq; reflexivity.
Qed.

Lemma fround_nonfinite x : sf_nonfinite (Prim2SF x) = true -> fround x = x.
Proof.
  unfold fround. destruct (Prim2SF x); try discriminate; reflexivity.
Qed.

(** X9.  With too few samples the statistics are not numbers to work with.
    For a single sample ([n = 1]) every entry of the covariance is NaN or
    an infinity, since it is a quotient by [n - 1 = 0].  For no sample
    ([n = 0]) every mean and every entry of the covariance is NaN or an
    infinity. *)
Theorem undersampled_statistics_are_not_finite :
  (forall s, s 3 3 = 1%float ->
     forall i j, i < 3 -> j < 3 -> is_finite (entry (sumsToCov s) i j) = false) /\
  (forall pixels, num_eq (sums pixels 3 3) 0%float = true ->
     (forall i, i < 3 -> is_finite (idx (means pixels) i) = false) /\
     (forall i j, i < 3 -> j < 3 ->
        is_finite (entry (sumsToCov (sums pixels)) i j) = false)).
Proof.
  split.
  - intros s Hn i j Hi Hj. rewrite sumsToCov_entry by assumption.
    rewrite Hn. apply nonfinite_is_finite, div_by_zero.
    exists false. reflexivity.
  - intros pixels Hn. apply num_eq_zero_isZ in Hn. split.
    + intros i Hi. rewrite means_entry by assumption.
      rewrite fround_nonfinite by now apply div_by_zero.
      now apply nonfinite_is_finite, div_by_zero.
    + intros i j Hi Hj. rewrite sumsToCov_entry by assumption.
      apply nonfinite_is_finite, div_of_nonfinite, sub_nonfinite.
      now apply div_by_zero.
Qed.

Lemma undersampled_statistics_are_not_finite_witness :
  is_finite (entry (sumsToCov (sums MoreExamples.oneSample)) 0 0) = false /\
  is_finite (idx (means MoreExamples.noSample) 0) = false.
Proof.
  destruct undersampled_statistics_are_not_finite as [Hone Hnone].
  split.
  - apply Hone; [reflexivity|lia|lia].
  - destruct (Hnone MoreExamples.noSample eq_refl) as [Hm _]. apply Hm. lia.
Defined.

(** *** The shape of the executions *)

Lemma requests_recorder ts : forall last log,
  snd (requests recorder ts (last, log)) = log ++ executed last ts.
Proof.
  induction ts as [|t ts IH]; intros last log.
  - cbn. now rewrite app_nil_r.
  - cbn [requests oncePerTimestamp executed].
    destruct (differs t last).
    + cbn [recorder snd]. rewrite IH, <- app_assoc. reflexivity.
    + cbn [snd]. apply IH.
Qed.

Lemma invocations_executed ts : invocations ts = executed None ts.
Proof. unfold invocations. now rewrite requests_recorder. Qed.

Lemma executed_In last ts t : In t (executed last ts) -> In t ts.
Proof.
  revert last. induction ts as [|u ts IH]; intros last; [auto|].
  cbn [executed]. destruct (differs u last).
  - intros [H | H]; [now left|right; eauto].
  - intros H. right. eauto.
Qed.

Lemma executed_length last ts : List.length (executed last ts) <= List.length ts.
Proof.
  revert last. induction ts as [|u ts IH]; intros last; [auto|].
  cbn [executed]. destruct (differs u last); cbn [List.length].
  - specialize (IH (Some u)). lia.
  - specialize (IH last). lia.
Qed.

(** The first execution differs from the remembered timestamp, and each
    later one from the execution before it. *)
Lemma executed_differ ts : forall last,
  match executed last ts with
  | [] => True
  | a :: _ => differs a last = true
  end /\
  consecutive_differ (executed last ts) = true.
Proof.
  induction ts as [|u ts IH]; intros last; [split; reflexivity|].
  cbn [executed]. destruct (differs u last) eqn:Hd; [|apply IH].
  split; [exact Hd|].
  destruct (IH (Some u)) as [Hhead Hrest].
  cbn [consecutive_differ].
  destruct (executed (Some u) ts) as [|b rest]; [reflexivity|].
  cbn [differs] in Hhead. now rewrite Hhead, Hrest.
Qed.

Lemma executed_again ts : forall last,
  executed last (executed last ts) = executed last ts.
Proof.
  induction ts as [|u ts IH]; intros last; [reflexivity|].
  cbn [executed]. destruct (differs u last) eqn:Hd; [|apply IH].
  cbn [executed]. now rewrite Hd, IH.
Qed.

(** X10.  What the wrapper executes out of any sequence of requests: the
    first request always (also one whose timestamp is NaN); only
    timestamps that were requested, and never more executions than
    requests; no two consecutive executions with equal timestamps.  Sending
    the executed timestamps through a fresh wrapper again executes all of
    them. *)
Theorem executions_follow_requests ts :
  hd_error (invocations ts) = hd_error ts /\
  (forall t, In t (invocations ts) -> In t ts) /\
  List.length (invocations ts) <= List.length ts /\
  consecutive_differ (invocations ts) = true /\
  invocations (invocations ts) = invocations ts.
Proof.
  rewrite !invocations_executed. repeat split.
  - destruct ts; reflexivity.
  - intros t. apply executed_In.
  - apply executed_length.
  - apply executed_differ.
  - apply executed_again.
Qed.

(** *** A node that is no longer the current one *)

Section StaleLoop.

Variable H : Type.
Variable handler : Camera.Handler H.
Variables node other : Camera.Node.

(** X11.  When another node has been mounted, the loop of the old node
    ends with its next frame: the callback returns before the handler,
    reports nothing and does not register itself again.  However many
    frames of the old node are delivered, the handler's state and the
    reported errors stay as they were, and only the callback of the new
    node remains registered. *)
Theorem stale_loop_ends frames st :
  armed node handler st ->
  Camera.id other <> Camera.id node ->
  frames <> [] ->
  let st' := Camera.deliveries node frames (Camera.camRef other st) in
  Camera.current st' = Some (Camera.id other) /\
  Camera.handled st' = Camera.handled st /\
  Camera.errors st' = Camera.errors st /\
  Camera.watching st' = [Camera.id other].
Proof.
  intros (Hc & Hh & Hw) Hne Hf. cbv zeta.
  destruct frames as [|[now metadata] frames]; [contradiction|].
  cbn [Camera.deliveries fold_left fst snd].
  set (st1 := Camera.deliver node now metadata (Camera.camRef other st)).
  assert (H1 : Camera.current st1 = Some (Camera.id other) /\
               Camera.handled st1 = Camera.handled st /\
               Camera.errors st1 = Camera.errors st /\
               Camera.watching st1 = [Camera.id other]).
  { unfold st1, Camera.deliver, Camera.camRef, Camera.watch. cbn.
    rewrite Hw. cbn. rewrite Nat.eqb_refl.
    unfold Camera.videoFrameCallback, Camera.otherNode. cbn.
    apply Nat.eqb_neq in Hne. rewrite Hne. cbn. auto. }
  clearbody st1. clear Hf.
  revert st1 H1. induction frames as [|[now' metadata'] frames IH];
    intros st1 (Hc1 & Hh1 & He1 & Hw1); [cbn; auto|].
  cbn [fold_left fst snd]. apply IH.
  unfold Camera.deliver. rewrite Hw1. cbn.
  apply Nat.eqb_neq in Hne. rewrite Hne. auto.
Qed.

End StaleLoop.

Lemma stale_loop_ends_witness :
  let st' :=
    Camera.deliveries Examples.videoNode Examples.threeFrames
      (Camera.camRef MoreExamples.otherNode
         (Camera.camRef Examples.videoNode Examples.unmounted)) in
  Camera.current st' = Some 8 /\
  Camera.handled st' = 0 /\
  Camera.errors st' = [] /\
  Camera.watching st' = [8].
Proof.
  apply (@stale_loop_ends nat Examples.touchy Examples.videoNode
           MoreExamples.otherNode Examples.threeFrames
           (Camera.camRef Examples.videoNode Examples.unmounted)).
  - repeat split.
  - cbn. lia.
  - discriminate.
Defined.

(** *** When the pipeline exists *)

(** X12.  Rendering can be requested exactly when [canvasRef] received a
    node with a webgl2 context.  For a null node it does nothing; for a node
    without a context it throws, and then nothing was handed to
    [onError], no sampler exists and [renderFrame.current] stays unset, so
    no frame request has any effect. *)
Theorem pipeline_needs_context node :
  (requestFrame (canvasRef node) = true <->
   exists canvas gl, node = Some canvas /\ Canvas.webgl2 canvas = Some gl) /\
  (node = None -> canvasRef node = NoNode) /\
  (forall canvas, node = Some canvas -> Canvas.webgl2 canvas = None ->
     canvasRef node = Thrown "Could not get webgl2 context" /\
     renderFrame (canvasRef node) = None).
Proof.
  split; [|split].
  - unfold requestFrame, renderFrame, canvasRef.
    destruct node as [canvas|].
    + destruct (Canvas.webgl2 canvas) as [gl|] eqn:Hgl.
      * split; [intros _; eauto|intros _].
        destruct (GL.EXT_color_buffer_float gl), (GL.EXT_color_buffer_half_float gl);
          reflexivity.
      * split; [discriminate|].
        intros (c & gl & Hc & Hg). inversion Hc; subst. congruence.
    + split; [discriminate|]. intros (c & gl & Hc & _). discriminate Hc.
  - intros ->. reflexivity.
  - intros canvas -> Hgl. unfold renderFrame, canvasRef. rewrite Hgl. auto.
Qed.

Lemma pipeline_needs_context_witness :
  canvasRef (Some (Canvas.make None)) = Thrown "Could not get webgl2 context" /\
  renderFrame (canvasRef (Some (Canvas.make None))) = None.
Proof.
  destruct (pipeline_needs_context (Some (Canvas.make None))) as (_ & _ & H).
  apply (H (Canvas.make None)); reflexivity.
Defined.

(** *** No handler set *)

(** X13.  While [frameHandler.current] is unset, delivered frames are
    dropped and the loop goes on: after any sequence of frames of the
    mounted node nothing has been handled or reported, and the callback is
    registered for the next frame. *)
Theorem unhandled_frames_keep_loop (H : Type) (node : Camera.Node) frames :
  forall st : Camera.State H,
  Camera.current st = Some (Camera.id node) ->
  Camera.frameHandler st = None ->
  Camera.watching st = [Camera.id node] ->
  let st' := Camera.deliveries node frames st in
  Camera.current st' = Some (Camera.id node) /\
  Camera.frameHandler st' = None /\
  Camera.handled st' = Camera.handled st /\
  Camera.errors st' = Camera.errors st /\
  Camera.watching st' = [Camera.id node].
Proof.
  induction frames as [|[now metadata] frames IH]; intros st Hc Hh Hw; cbv zeta.
  - cbn. auto.
  - cbn [Camera.deliveries fold_left fst snd].
    set (st1 := Camera.deliver node now metadata st).
    assert (H1 : Camera.current st1 = Some (Camera.id node) /\
                 Camera.frameHandler st1 = None /\
                 Camera.handled st1 = Camera.handled st /\
                 Camera.errors st1 = Camera.errors st /\
                 Camera.watching st1 = [Camera.id node]).
    { unfold st1, Camera.deliver. rewrite Hw. cbn. rewrite Nat.eqb_refl.
      unfold Camera.videoFrameCallback, Camera.otherNode. cbn.
      rewrite Hc, Nat.eqb_refl, Hh. cbn. auto. }
    destruct H1 as (Hc1 & Hh1 & Hd1 & He1 & Hw1).
    destruct (IH st1 Hc1 Hh1 Hw1) as (Hc' & Hh' & Hd' & He' & Hw').
    cbv zeta in Hc', Hh', Hd', He', Hw'. unfold Camera.deliveries in *.
    rewrite Hd', He'. auto.
Qed.

Lemma unhandled_frames_keep_loop_witness :
  let st :=
    {| Camera.current := Some 7; Camera.frameHandler := None;
       Camera.handled := 0; Camera.errors := []; Camera.watching := [7] |} in
  Camera.watching (Camera.deliveries Examples.videoNode Examples.threeFrames st) = [7] /\
  Camera.handled (Camera.deliveries Examples.videoNode Examples.threeFrames st) = 0.
Proof.
  cbv zeta.
  destruct (@unhandled_frames_keep_loop nat Examples.videoNode Examples.threeFrames
              {| Camera.current := Some 7; Camera.frameHandler := None;
                 Camera.handled := 0; Camera.errors := []; Camera.watching := [7] |}
              eq_refl eq_refl eq_refl) as (_ & _ & Hd & _ & Hw).
  split; [exact Hw|exact Hd].
Defined.

(** *** Instances *)

Lemma stopStream_stops_every_track_witness :
  In 1 (snd (Stream.stopStream (Some MoreExamples.threeTracks) [3; 4])).
Proof.
  destruct stopStream_stops_every_track as [H _].
  destruct (H MoreExamples.threeTracks [3; 4]) as (emptied & _ & _ & Hin).
  apply Hin. right. cbn. auto.
Defined.

Lemma capture_only_adds_resolution_witness :
  Display.resolution
    (Tick.display
       (render Examples.envFinite MoreExamples.propsCapture 0%float Examples.seen))
  = Some (640%float, 480%float).
Proof.
  destruct (@capture_only_adds_resolution Examples.envFinite (Some 1%float) None None
              (Capture.make "still.png" "image/png") 0%float Examples.seen)
    as (_ & _ & _ & _ & _ & _ & _ & _ & _ & _ & _ & _ & H).
  exact (H eq_refl).
Defined.

Lemma executions_follow_requests_witness :
  In 2%float [1%float; 1%float; 2%float; 2%float; 1%float].
Proof.
  destruct (executions_follow_requests [1%float; 1%float; 2%float; 2%float; 1%float])
    as (_ & H & _).
  apply H. cbn. auto.
Defined.
